(** * Nano Banana MCP server: a shallow embedding of [nano_banana_server.py]

    The server is a thin adapter around a hosted image model.  Its code is
    effectful Python: it mutates [self.client], calls into three libraries
    ([os], [base64], [google.genai]) and relies on [try]/[except].  The
    embedding below keeps that shape:

    - Python values the code touches are records and inductive types;
    - the standard library's base64 codec is written out (module [Base64]),
      so that decoding failures and the encode/decode round trip are facts
      about a real codec and not assumptions;
    - the remote service and the process environment are a record of
      oracles ([Externals]); every theorem quantifies over all of them;
    - the methods live in a state-and-exception monad over the server
      object and a trace of the calls that left the process. *)

From Stdlib Require Import Strings.String Strings.Ascii Strings.Byte NArith List Bool Lia.
From Stdlib Require Import DecimalString.
From stdpp Require Import base option gmap strings.

Import ListNotations.
Local Open Scope string_scope.
Local Open Scope list_scope.

(** ** Python exceptions

    Every fault in the model is an instance of Python's [Exception]: the
    classes the code and its libraries raise.  [exc_str] is [str(e)]. *)

Inductive exn_class : Type :=
  | ValueError
  | TypeError
  | IndexError
  | AttributeError
  | binascii_Error
  | OtherException (name : string).

Record PyException : Type := Raise {
  exc_class : exn_class;
  exc_str : string
}.

(** A computation that either raises or returns. *)
Definition result (A : Type) : Type := PyException + A.

(** [bytes] objects. *)
Abbreviation bytes := (list byte).

(** Python truthiness of the values the code tests with [if x:] / [not x]. *)
Definition truthy_str (s : option string) : bool :=
  match s with
  | Some (String _ _) => true
  | _ => false
  end.

Definition truthy_bytes (b : option bytes) : bool :=
  match b with
  | Some (_ :: _) => true
  | _ => false
  end.

(** A [str] is held as its UTF-8 encoding, one [ascii] per byte.  A byte
    of the form 10xxxxxx continues the character begun before it. *)
Definition is_continuation (c : ascii) : bool :=
  ((128 <=? N_of_ascii c) && (N_of_ascii c <? 192))%N.

(** [s[:n]]: the first [n] characters (code points) of [s], each with all
    its bytes. *)
Fixpoint str_prefix (n : nat) (s : string) : string :=
  match s with
  | EmptyString => EmptyString
  | String c s' =>
      if is_continuation c then String c (str_prefix n s')
      else
        match n with
        | 0 => EmptyString
        | S n' => String c (str_prefix n' s')
        end
  end.

(** [len(s)]: the number of characters of [s]. *)
Fixpoint str_len (s : string) : nat :=
  match s with
  | EmptyString => 0
  | String c s' => if is_continuation c then str_len s' else S (str_len s')
  end.

(** [str(n)] for a non-negative integer, as f-strings print it. *)
Definition str_of_nat (n : nat) : string :=
  NilZero.string_of_uint (Nat.to_uint n).

(** ** The standard library's base64 codec

    [base64.b64encode] and [base64.b64decode] (with the default
    [validate=False]) as CPython implements them on top of
    [binascii.b2a_base64] and [binascii.a2b_base64]. *)
Module Base64.

Definition BASE64_PAD : ascii := "="%char.

Definition alphabet : string :=
  "ABCDEFGHIJKLMNOPQRSTUVWXYZabcdefghijklmnopqrstuvwxyz0123456789+/".

(** Encoding table: sextet to character. *)
Definition table_b2a_base64 (n : N) : ascii :=
  match String.get (N.to_nat n) alphabet with
  | Some c => c
  | None => BASE64_PAD
  end.

(** Decoding table: character to sextet; entries outside the alphabet hold
    255 (the table's [-1] read as an unsigned char). *)
Definition table_a2b_base64 (c : ascii) : N :=
  let n := N_of_ascii c in
  if ((65 <=? n) && (n <=? 90))%N then (n - 65)%N
  else if ((97 <=? n) && (n <=? 122))%N then (n - 71)%N
  else if ((48 <=? n) && (n <=? 57))%N then (n + 4)%N
  else if (n =? 43)%N then 62%N
  else if (n =? 47)%N then 63%N
  else 255%N.

(** Store into an [unsigned char]. *)
Definition byte_of_N (n : N) : byte :=
  match Byte.of_N (n mod 256) with
  | Some b => b
  | None => x00
  end.

(** [binascii.b2a_base64(data, newline=False)]: three bytes become four
    characters; a tail of one or two bytes is padded with [=]. *)
Fixpoint b2a_base64 (data : bytes) : string :=
  match data with
  | [] => ""
  | [a] =>
      let x := Byte.to_N a in
      String (table_b2a_base64 (N.shiftr x 2))
        (String (table_b2a_base64 (N.shiftl (N.land x 3) 4))
           (String BASE64_PAD (String BASE64_PAD "")))
  | [a; b] =>
      let x := Byte.to_N a in
      let y := Byte.to_N b in
      String (table_b2a_base64 (N.shiftr x 2))
        (String (table_b2a_base64
                   (N.lor (N.shiftl (N.land x 3) 4) (N.shiftr y 4)))
           (String (table_b2a_base64 (N.shiftl (N.land y 15) 2))
              (String BASE64_PAD "")))
  | a :: b :: c :: rest =>
      let x := Byte.to_N a in
      let y := Byte.to_N b in
      let z := Byte.to_N c in
      String (table_b2a_base64 (N.shiftr x 2))
        (String (table_b2a_base64
                   (N.lor (N.shiftl (N.land x 3) 4) (N.shiftr y 4)))
           (String (table_b2a_base64
                      (N.lor (N.shiftl (N.land y 15) 2) (N.shiftr z 6)))
              (String (table_b2a_base64 (N.land z 63))
                 (b2a_base64 rest))))
  end.

Definition incorrect_padding : PyException :=
  Raise binascii_Error "Incorrect padding".

Definition invalid_length (produced : nat) : PyException :=
  Raise binascii_Error
    ("Invalid base64-encoded string: number of data characters ("
     +:+ str_of_nat (produced / 3 * 4 + 1)
     +:+ ") cannot be 1 more than a multiple of 4").

(** The decoding loop of [binascii.a2b_base64] in non-strict mode.
    [quad_pos] is the position inside the current group of four,
    [leftchar] the bits not yet written, [pads] the run of [=] seen since
    the last data character, [out] the bytes written so far. *)
Fixpoint a2b_loop (s : string) (quad_pos : nat) (leftchar : N) (pads : nat)
    (out : bytes) : result bytes :=
  match s with
  | EmptyString =>
      match quad_pos with
      | 0 => inr out
      | 1 => inl (invalid_length (length out))
      | _ => inl incorrect_padding
      end
  | String ch s' =>
      if Ascii.eqb ch BASE64_PAD then
        if (2 <=? quad_pos)%nat then
          if (4 <=? quad_pos + S pads)%nat then inr out
          else a2b_loop s' quad_pos leftchar (S pads) out
        else a2b_loop s' quad_pos leftchar pads out
      else
        let this_ch := table_a2b_base64 ch in
        if (64 <=? this_ch)%N then a2b_loop s' quad_pos leftchar pads out
        else
          match quad_pos with
          | 0 => a2b_loop s' 1 this_ch 0 out
          | 1 =>
              a2b_loop s' 2 (N.land this_ch 15) 0
                (out ++ [byte_of_N (N.lor (N.shiftl leftchar 2)
                                          (N.shiftr this_ch 4))])
          | 2 =>
              a2b_loop s' 3 (N.land this_ch 3) 0
                (out ++ [byte_of_N (N.lor (N.shiftl leftchar 4)
                                          (N.shiftr this_ch 2))])
          | _ =>
              a2b_loop s' 0 0 0
                (out ++ [byte_of_N (N.lor (N.shiftl leftchar 6) this_ch)])
          end
  end.

Definition a2b_base64 (s : string) : result bytes := a2b_loop s 0 0 0 [].

Fixpoint is_ascii_str (s : string) : bool :=
  match s with
  | EmptyString => true
  | String c s' => (N_of_ascii c <? 128)%N && is_ascii_str s'
  end.

(** [base64.b64decode(s)] on a [str] argument. *)
Definition b64decode (s : string) : result bytes :=
  if is_ascii_str s then a2b_base64 s
  else inl (Raise ValueError
              "string argument should contain only ASCII characters").

(** [base64.b64encode(data).decode('utf-8')]. *)
Definition b64encode (data : bytes) : string := b2a_base64 data.

End Base64.

(** ** The [google.genai] types the code reads and builds

    The code probes response parts defensively ([hasattr] and [is not
    None]), so an attribute is absent, [None] or a value.  The fields the
    code reads without probing are [Optional] in the library. *)

Inductive attr (A : Type) : Type :=
  | NoAttr
  | AttrNone
  | Attr (a : A).
Arguments NoAttr {A}.
Arguments AttrNone {A}.
Arguments Attr {A} a.

Record Blob : Type := {
  data : attr bytes;
  mime_type : option string
}.

Record Part : Type := {
  text : option string;
  inline_data : attr Blob
}.

Record Content : Type := { parts : option (list Part) }.

Record Candidate : Type := { content : option Content }.

Record GenerateContentResponse : Type := {
  candidates : option (list Candidate)
}.

(** An element of the [contents] list sent to the model. *)
Inductive content_item : Type :=
  | ContentText (s : string)
  | ContentPart (p : Part).

(** A [Client] object.  [client_id] is the object's identity: the position
    of its construction in the trace. *)
Record Client : Type := {
  client_api_key : string;
  client_id : nat
}.

(** ** The data classes of the module *)

Record ImageGenerationRequest : Type := {
  prompt : string;
  input_image_data : option bytes;
  input_image_mime_type : option string
}.

Definition default_model : string := "gemini-2.5-flash-image-preview".

Record ImageGenerationResponse : Type := {
  success : bool;
  generated_image_data : option bytes;
  error_message : option string;
  model_used : string
}.

(** ** What leaves the process

    One event per call into a library or the outside world, in program
    order. *)
Inductive event : Type :=
  | Print (line : string)
  | NewClient (api_key : string)
  | PartFromBytes (d : bytes) (mime : string)
  | GenerateContent (c : Client) (model : string) (contents : list content_item)
  | B64Decode (s : string)
  | B64Encode (d : bytes).

(** The outside world.  Each oracle sees the trace so far, so a service may
    answer the same request differently over time, and may raise. *)
Record Externals : Type := {
  environ : gmap string string;
  Client_init : list event -> string -> option PyException;
  Part_from_bytes : list event -> bytes -> string -> result Part;
  generate_content :
    list event -> Client -> string -> list content_item ->
    result GenerateContentResponse
}.

(** ** The server object and the monad its methods run in *)

Record NanoBananaMCPServer : Type := {
  api_key : string;
  model_name : string;
  client : option Client
}.

Record State : Type := {
  self : NanoBananaMCPServer;
  trace : list event
}.

Definition M (A : Type) : Type := State -> result A * State.

Definition ret {A} (a : A) : M A := fun st => (inr a, st).

Definition raise {A} (e : PyException) : M A := fun st => (inl e, st).

Definition bind {A B} (m : M A) (k : A -> M B) : M B :=
  fun st =>
    match m st with
    | (inl e, st') => (inl e, st')
    | (inr a, st') => k a st'
    end.

(** [try: body except Exception as e: handler e]. *)
Definition try_except {A} (body : M A) (handler : PyException -> M A) : M A :=
  fun st =>
    match body st with
    | (inl e, st') => handler e st'
    | (inr a, st') => (inr a, st')
    end.

#[global] Instance M_ret : MRet M := @ret.
#[global] Instance M_bind : MBind M := fun A B k m => bind m k.

Definition get_self : M NanoBananaMCPServer := fun st => (inr (self st), st).

Definition set_client (c : option Client) : M unit :=
  fun st =>
    (inr tt,
     {| self := {| api_key := api_key (self st);
                   model_name := model_name (self st);
                   client := c |};
        trace := trace st |}).

Definition emit (ev : event) : M unit :=
  fun st => (inr tt, {| self := self st; trace := trace st ++ [ev] |}).

Definition print (line : string) : M unit := emit (Print line).

(** Run an oracle on the trace so far. *)
Definition ask {A} (f : list event -> result A) : M A :=
  fun st => (f (trace st), st).

(** [try: m except Exception as e: ...] where the handler leaves the
    function: the outcome of [m] as a value. *)
Definition attempt {A} (m : M A) : M (result A) :=
  fun st => let '(r, st') := m st in (inr r, st').

(** The values stored in the dictionaries the tool interface returns. *)
Inductive pyval : Type :=
  | VNone
  | VBool (b : bool)
  | VInt (n : Z)
  | VStr (s : string).

Definition pyval_of_str (s : option string) : pyval :=
  match s with
  | Some s => VStr s
  | None => VNone
  end.

(** [a or b] on optional strings. *)
Definition py_or (a b : option string) : option string :=
  if truthy_str a then a else b.

Definition api_key_missing : PyException :=
  Raise ValueError
    "Google AI Studio API key is required. Set GOOGLE_AI_STUDIO_API_KEY environment variable.".

(** ** The methods of [NanoBananaMCPServer] *)
Section Server.

Context (E : Externals).

(** [NanoBananaMCPServer.__init__]. *)
Definition __init__ (key : option string) : result NanoBananaMCPServer :=
  match py_or key (environ E !! "GOOGLE_AI_STUDIO_API_KEY") with
  | Some (String a k) =>
      inr {| api_key := String a k;
             model_name := default_model;
             client := None |}
  | _ => inl api_key_missing
  end.

(** [Client(api_key=...)]: the call is recorded, then the library either
    raises or hands back a new object. *)
Definition new_Client (key : string) : M Client :=
  fun st =>
    let st' := {| self := self st; trace := trace st ++ [NewClient key] |} in
    match Client_init E (trace st) key with
    | Some e => (inl e, st')
    | None =>
        (inr {| client_api_key := key; client_id := length (trace st) |}, st')
    end.

(** [NanoBananaMCPServer._get_client]. *)
Definition _get_client : M Client :=
  s ← get_self;
  match client s with
  | None =>
      c ← new_Client (api_key s);
      set_client (Some c);;
      print "✅ Nano Banana MCP Server: Created AI Studio client";;
      mret c
  | Some c => mret c
  end.

(** [types.Part.from_bytes(data=..., mime_type=...)]. *)
Definition from_bytes (d : bytes) (mime : string) : M Part :=
  emit (PartFromBytes d mime);;
  ask (fun tr => Part_from_bytes E tr d mime).

(** [client.models.generate_content(model=..., contents=...)]. *)
Definition models_generate_content (c : Client) (model : string)
    (contents : list content_item) : M GenerateContentResponse :=
  fun st =>
    (generate_content E (trace st) c model contents,
     {| self := self st;
        trace := trace st ++ [GenerateContent c model contents] |}).

(** [len(response.candidates)]. *)
Definition len_candidates (response : GenerateContentResponse) : M nat :=
  match candidates response with
  | Some cs => mret (length cs)
  | None => raise (Raise TypeError "object of type 'NoneType' has no len()")
  end.

(** [response.candidates[0].content.parts], ready to iterate over. *)
Definition first_candidate_parts (response : GenerateContentResponse)
    : M (list Part) :=
  match candidates response with
  | None => raise (Raise TypeError "'NoneType' object is not subscriptable")
  | Some [] => raise (Raise IndexError "list index out of range")
  | Some (c :: _) =>
      match content c with
      | None =>
          raise (Raise AttributeError
                   "'NoneType' object has no attribute 'parts'")
      | Some ct =>
          match parts ct with
          | None => raise (Raise TypeError "'NoneType' object is not iterable")
          | Some ps => mret ps
          end
      end
  end.

(** The [for part in ...] loop of [generate_image], with its [break]. *)
Fixpoint extract_image (ps : list Part) : M (option bytes) :=
  match ps with
  | [] => mret None
  | part :: rest =>
      match inline_data part with
      | Attr blob =>
          match data blob with
          | Attr (b :: d) =>
              print ("✅ Nano Banana MCP: Extracted generated image ("
                     +:+ str_of_nat (length (b :: d)) +:+ " bytes)");;
              mret (Some (b :: d))
          | _ => extract_image rest
          end
      | _ => extract_image rest
      end
  end.

(** Lines 67-87 of [generate_image]: acquire the client, assemble the
    contents, call the model. *)
Definition generate_image_request (request : ImageGenerationRequest)
    : M GenerateContentResponse :=
  print ("🎨 Nano Banana MCP: Generating image with prompt: "
         +:+ str_prefix 100 (prompt request) +:+ "...");;
  client ← _get_client;
  let contents := [ContentText (prompt request)] in
  contents ←
    (match input_image_data request with
     | Some (b :: d) =>
         print ("📷 Nano Banana MCP: Using input image ("
                +:+ str_of_nat (length (b :: d)) +:+ " bytes)");;
         image_part ←
           from_bytes (b :: d)
             (default "image/png"
                (py_or (input_image_mime_type request) (Some "image/png")));
         mret (contents ++ [ContentPart image_part])
     | _ => mret contents
     end);
  s ← get_self;
  models_generate_content client (model_name s) contents.

(** Lines 89-110 of [generate_image]: inspect the response. *)
Definition generate_image_inspect (response : GenerateContentResponse)
    : M ImageGenerationResponse :=
  n ← len_candidates response;
  print ("✅ Nano Banana MCP: Received response with "
         +:+ str_of_nat n +:+ " candidates");;
  ps ← first_candidate_parts response;
  generated_image_data ← extract_image ps;
  s ← get_self;
  if truthy_bytes generated_image_data then
    mret {| success := true;
            generated_image_data := generated_image_data;
            error_message := None;
            model_used := model_name s |}
  else
    mret {| success := false;
            generated_image_data := None;
            error_message := Some "No image data found in model response";
            model_used := default_model |}.

(** The [try] block of [generate_image]. *)
Definition generate_image_try (request : ImageGenerationRequest)
    : M ImageGenerationResponse :=
  response ← generate_image_request request;
  generate_image_inspect response.

(** The [except Exception as e] block of [generate_image]. *)
Definition generate_image_except (e : PyException)
    : M ImageGenerationResponse :=
  print ("Nano Banana MCP: Error generating image: " +:+ exc_str e);;
  mret {| success := false;
          generated_image_data := None;
          error_message := Some ("Image generation failed: " +:+ exc_str e);
          model_used := default_model |}.

(** [NanoBananaMCPServer.generate_image]. *)
Definition generate_image (request : ImageGenerationRequest)
    : M ImageGenerationResponse :=
  try_except (generate_image_try request) generate_image_except.

(** [base64.b64decode(s)], recorded in the trace. *)
Definition base64_b64decode (s : string) : M bytes :=
  emit (B64Decode s);;
  ask (fun _ => Base64.b64decode s).

(** [base64.b64encode(d).decode('utf-8')], recorded in the trace. *)
Definition base64_b64encode (d : bytes) : M string :=
  emit (B64Encode d);;
  mret (Base64.b64encode d).

(** Lines 142-164 of [generate_image_from_base64]: what runs once the
    input image, if any, is decoded. *)
Definition generate_image_from_decoded (prompt : string)
    (input_image_data : option bytes) (input_image_mime_type : option string)
    : M (gmap string pyval) :=
  let request := {| prompt := prompt;
                    input_image_data := input_image_data;
                    input_image_mime_type := input_image_mime_type |} in
  response ← generate_image request;
  let result : gmap string pyval :=
    <["model_used" := VStr (model_used response)]>
      (<["success" := VBool (success response)]> ∅) in
  match success response, generated_image_data response with
  | true, Some (b :: d) =>
      b64 ← base64_b64encode (b :: d);
      mret (<["generated_image_size" := VInt (Z.of_nat (length (b :: d)))]>
              (<["generated_image_b64" := VStr b64]> result))
  | _, _ =>
      mret (<["error" := pyval_of_str (error_message response)]> result)
  end.

(** [NanoBananaMCPServer.generate_image_from_base64]. *)
Definition generate_image_from_base64 (prompt : string)
    (input_image_b64 : option string) (input_image_mime_type : option string)
    : M (gmap string pyval) :=
  match input_image_b64 with
  | Some (String a s) =>
      decoded ← attempt (base64_b64decode (String a s));
      match decoded with
      | inl e =>
          mret (<["error" := VStr ("Failed to decode base64 input image: "
                                   +:+ exc_str e)]>
                  (<["success" := VBool false]> ∅))
      | inr input_image_data =>
          generate_image_from_decoded prompt (Some input_image_data)
            input_image_mime_type
      end
  | _ => generate_image_from_decoded prompt None input_image_mime_type
  end.

End Server.

(** The module-level tool function [generate_image_with_nano_banana]: a
    fresh server per call, built from the environment. *)
Definition generate_image_with_nano_banana (E : Externals) (prompt : string)
    (input_image_b64 : option string) (input_image_mime_type : option string)
    (tr : list event) : result (gmap string pyval) * list event :=
  match __init__ E None with
  | inl e => (inl e, tr)
  | inr server =>
      let '(r, st) :=
        generate_image_from_base64 E prompt input_image_b64
          input_image_mime_type {| self := server; trace := tr |} in
      (r, trace st)
  end.

(** ** Test doubles *)
Module Mock.

Definition image_part (d : bytes) (mime : string) : Part :=
  {| text := None;
     inline_data := Attr {| data := Attr d; mime_type := Some mime |} |}.

Definition text_part (s : string) : Part :=
  {| text := Some s; inline_data := AttrNone |}.

Definition response_of (ps : list Part) : GenerateContentResponse :=
  {| candidates := Some [ {| content := Some {| parts := Some ps |} |} ] |}.

Definition no_candidates : GenerateContentResponse :=
  {| candidates := Some [] |}.

(** A world with a credential in the environment and a remote service
    that always answers [r]. *)
Definition world (r : result GenerateContentResponse) : Externals :=
  {| environ := {[ "GOOGLE_AI_STUDIO_API_KEY" := "test-key" ]};
     Client_init := fun _ _ => None;
     Part_from_bytes := fun _ d m => inr (image_part d m);
     generate_content := fun _ _ _ _ => r |}.

(** The same world without the credential. *)
Definition bare_world : Externals :=
  {| environ := ∅;
     Client_init := fun _ _ => None;
     Part_from_bytes := fun _ d m => inr (image_part d m);
     generate_content := fun _ _ _ _ => inr no_candidates |}.

Definition server : NanoBananaMCPServer :=
  {| api_key := "test-key"; model_name := default_model; client := None |}.

Definition start : State := {| self := server; trace := [] |}.

Definition png : bytes := [x89; x50; x4e; x47].

End Mock.

(** The request and worlds of the examples. *)
Module Run.

Definition text_request : ImageGenerationRequest :=
{| prompt := "A ceramic bowl with patterns";
   input_image_data := None;
   input_image_mime_type := None |}.

Definition other : bytes := [x00; x01].

(** One text part, then two image parts; a second candidate with another
  image. *)
Definition two_candidates : GenerateContentResponse :=
{| candidates :=
     Some [ {| content :=
                 Some {| parts :=
                           Some [Mock.text_part "here you go";
                                 Mock.image_part Mock.png "image/png";
                                 Mock.image_part other "image/png"] |} |};
            {| content :=
                 Some {| parts :=
                           Some [Mock.image_part other "image/png"] |} |} ]
|}.

Definition text_only_response : GenerateContentResponse :=
Mock.response_of [Mock.text_part "sorry"].

(** The first candidate holds only text, the second holds an image. *)
Definition image_in_second_only : GenerateContentResponse :=
{| candidates :=
     Some [ {| content :=
                 Some {| parts := Some [Mock.text_part "no image here"] |} |};
            {| content :=
                 Some {| parts :=
                           Some [Mock.image_part Mock.png "image/png"] |} |} ]
|}.

Definition png_response : GenerateContentResponse :=
Mock.response_of [Mock.image_part Mock.png "image/png"].

(** What the tool interface returns for [png_response]. *)
Definition png_result : gmap string pyval :=
<["generated_image_size" := VInt 4]>
  (<["generated_image_b64" := VStr "iVBORw=="]>
     (<["model_used" := VStr default_model]>
        (<["success" := VBool true]> ∅))).

End Run.

(** ** The module's self-test *)

(** [d[key]]: a missing key raises [KeyError], whose [str] is the key's
    [repr]. *)
Definition getitem (d : gmap string pyval) (key : string) : result pyval :=
  match d !! key with
  | Some v => inr v
  | None => inl (Raise (OtherException "KeyError") ("'" +:+ key +:+ "'"))
  end.

(** Truthiness of a dictionary value. *)
Definition truthy_val (v : pyval) : bool :=
  match v with
  | VNone => false
  | VBool b => b
  | VInt n => negb (n =? 0)%Z
  | VStr s => negb (String.eqb s "")
  end.

(** [str(v)], as an f-string formats a dictionary value. *)
Definition str_of_val (v : pyval) : string :=
  match v with
  | VNone => "None"
  | VBool true => "True"
  | VBool false => "False"
  | VInt n => NilZero.string_of_int (Z.to_int n)
  | VStr s => s
  end.

Definition test_prompt : string :=
  "A beautiful handcrafted ceramic bowl with intricate patterns".

(** [test_nano_banana_server]. *)
Definition test_nano_banana_server (E : Externals) (tr : list event)
    : result (gmap string pyval) * list event :=
  let tr0 := tr ++ [Print "🧪 Testing Nano Banana MCP Server..."] in
  match generate_image_with_nano_banana E test_prompt None None tr0 with
  | (inl e, tr1) => (inl e, tr1)
  | (inr result, tr1) =>
      match getitem result "success" with
      | inl e => (inl e, tr1)
      | inr shown =>
          let tr2 :=
            tr1 ++ [Print ("Text-to-image result: " +:+ str_of_val shown)] in
          match getitem result "success" with
          | inl e => (inl e, tr2)
          | inr ok =>
              if truthy_val ok then
                match getitem result "generated_image_size" with
                | inl e => (inl e, tr2)
                | inr size =>
                    (inr result,
                     tr2 ++ [Print ("Generated image size: "
                                    +:+ str_of_val size +:+ " bytes")])
                end
              else
                match getitem result "error" with
                | inl e => (inl e, tr2)
                | inr err =>
                    (inr result,
                     tr2 ++ [Print ("Error: " +:+ str_of_val err)])
                end
          end
      end
  end.

(** More test doubles: libraries that fail. *)
Module Faulty.

Definition quota : PyException :=
  Raise (OtherException "ClientError") "429 RESOURCE_EXHAUSTED".

Definition bad_key : PyException :=
  Raise ValueError "Invalid API key".

(** The client constructor always raises. *)
Definition no_client : Externals :=
  {| environ := {[ "GOOGLE_AI_STUDIO_API_KEY" := "test-key" ]};
     Client_init := fun _ _ => Some bad_key;
     Part_from_bytes := fun _ d m => inr (Mock.image_part d m);
     generate_content := fun _ _ _ _ => inr Mock.no_candidates |}.

(** The client constructor raises while the trace is empty and succeeds
    afterwards. *)
Definition flaky_client : Externals :=
  {| environ := {[ "GOOGLE_AI_STUDIO_API_KEY" := "test-key" ]};
     Client_init := fun tr _ =>
       match tr with
       | [] => Some bad_key
       | _ => None
       end;
     Part_from_bytes := fun _ d m => inr (Mock.image_part d m);
     generate_content := fun _ _ _ _ => inr Mock.no_candidates |}.

(** A server that already holds a client. *)
Definition ready_client : Client :=
  {| client_api_key := "test-key"; client_id := 0 |}.

Definition ready : State :=
  {| self := {| api_key := "test-key";
                model_name := default_model;
                client := Some ready_client |};
     trace := [] |}.

Definition image_request : ImageGenerationRequest :=
  {| prompt := "make it festive";
     input_image_data := Some Mock.png;
     input_image_mime_type := None |}.

Definition none_candidates : GenerateContentResponse :=
  {| candidates := None |}.

Definition none_content : GenerateContentResponse :=
  {| candidates := Some [ {| content := None |} ] |}.

Definition none_parts : GenerateContentResponse :=
  {| candidates := Some [ {| content := Some {| parts := None |} |} ] |}.

End Faulty.

(** * Vocabulary of the statements *)

(** Bytes and sextets, for the facts about the codec. *)
Module Base64Spec.

Import Base64.

(** Every byte, for checks by enumeration. *)
Definition all_bytes : list byte :=
  map (fun n => byte_of_N (N.of_nat n)) (seq 0 256).

(** The four sextets of a group of three bytes, as the encoder cuts them. *)
Definition sextet0 (a : byte) : N := N.shiftr (Byte.to_N a) 2.
Definition sextet1 (a b : byte) : N :=
  N.lor (N.shiftl (N.land (Byte.to_N a) 3) 4) (N.shiftr (Byte.to_N b) 4).
Definition sextet2 (b c : byte) : N :=
  N.lor (N.shiftl (N.land (Byte.to_N b) 15) 2) (N.shiftr (Byte.to_N c) 6).
Definition sextet3 (c : byte) : N := N.land (Byte.to_N c) 63.

(** A character of the alphabet is a data character for the decoder, and
    the two tables are inverse on it. *)
Definition data_char (n : N) : bool :=
  negb (Ascii.eqb (table_b2a_base64 n) BASE64_PAD)
  && (table_a2b_base64 (table_b2a_base64 n) =? n)%N
  && (N_of_ascii (table_b2a_base64 n) <? 128)%N
  && (n <? 64)%N.

End Base64Spec.

(** What a method may do to the state: the credential and the model name
    stay, a stored client stays, and the trace grows by events that all
    satisfy [P]. *)
Definition steps (P : event -> Prop) (st st' : State) : Prop :=
  api_key (self st') = api_key (self st)
  /\ model_name (self st') = model_name (self st)
  /\ (forall c, client (self st) = Some c -> client (self st') = Some c)
  /\ exists evs, trace st' = trace st ++ evs /\ Forall P evs.

(** The state after [print(line)]. *)
Definition printed (st : State) (line : string) : State :=
  {| self := self st; trace := trace st ++ [Print line] |}.

(** The state after one more event. *)
Definition emitted (st : State) (ev : event) : State :=
  {| self := self st; trace := trace st ++ [ev] |}.

Definition respects (P : event -> Prop) {A} (m : M A) : Prop :=
  forall st, steps P st (m st).2.

(** Events a text-only request for [prompt] may produce: no decoding, no
    image part, and only the prompt in what is sent to the model. *)
Definition text_only (prompt : string) (ev : event) : Prop :=
  match ev with
  | B64Decode _ => False
  | PartFromBytes _ _ => False
  | GenerateContent _ _ contents => contents = [ContentText prompt]
  | _ => True
  end.

(** The image a response part carries, if it carries one: non-empty inline
    binary data. *)
Definition carried_image (p : Part) : option bytes :=
  match inline_data p with
  | Attr blob =>
      match data blob with
      | Attr (b :: d) => Some (b :: d)
      | _ => None
      end
  | _ => None
  end.

(** The failure value [generate_image] returns with message [msg]. *)
Definition failure (msg : string) : ImageGenerationResponse :=
  {| success := false;
     generated_image_data := None;
     error_message := Some msg;
     model_used := default_model |}.

(** Whether [needle] occurs in [s]. *)
Definition mentions (needle s : string) : bool :=
  match index 0 needle s with
  | Some _ => true
  | None => false
  end.

(** The first line [generate_image] prints. *)
Definition generating_line (request : ImageGenerationRequest) : string :=
  "🎨 Nano Banana MCP: Generating image with prompt: "
  +:+ str_prefix 100 (prompt request) +:+ "...".

(** The line the [except] block prints. *)
Definition error_line (e : PyException) : string :=
  "Nano Banana MCP: Error generating image: " +:+ exc_str e.

(** Events other than the remote call. *)
Definition no_remote (ev : event) : Prop :=
  match ev with
  | GenerateContent _ _ _ => False
  | _ => True
  end.

(** The events [_get_client] may produce. *)
Definition client_event (ev : event) : Prop :=
  match ev with
  | Print _ | NewClient _ => True
  | _ => False
  end.

(** The line printed before an input image is attached. *)
Definition using_line (d : bytes) : string :=
  "📷 Nano Banana MCP: Using input image ("
  +:+ str_of_nat (length d) +:+ " bytes)".

(** How many remote calls a trace holds. *)
Fixpoint remote_calls (tr : list event) : nat :=
  match tr with
  | [] => 0
  | GenerateContent _ _ _ :: tr' => S (remote_calls tr')
  | _ :: tr' => remote_calls tr'
  end.

(** A method makes at most [n] remote calls. *)
Definition calls_at_most (n : nat) {A} (m : M A) : Prop :=
  forall st,
    remote_calls (trace (m st).2) <= remote_calls (trace st) + n.

(** The media type handed to [Part.from_bytes]. *)
Definition sent_mime (mime : option string) (m : string) : Prop :=
  match mime with
  | Some (String a s) => m = String a s
  | _ => m = "image/png"
  end.

(** * Facts about the codec *)
Module Base64Facts.

Import Base64 Base64Spec.

Lemma byte_of_to_N b : byte_of_N (Byte.to_N b) = b.
Proof.
  unfold byte_of_N.
  pose proof (Byte.to_N_bounded b) as Hb.
  rewrite N.mod_small by lia.
  now rewrite Byte.of_to_N.
Qed.

Lemma all_bytes_complete b : In b all_bytes.
Proof.
  unfold all_bytes. apply in_map_iff.
  exists (N.to_nat (Byte.to_N b)). split.
  - rewrite N2Nat.id. apply byte_of_to_N.
  - apply in_seq. pose proof (Byte.to_N_bounded b). lia.
Qed.

Lemma forall_byte (P : byte -> bool) :
  forallb P all_bytes = true -> forall b, P b = true.
Proof.
  intros H b. rewrite forallb_forall in H. apply H, all_bytes_complete.
Qed.

Lemma forall_byte2 (P : byte -> byte -> bool) :
  forallb (fun a => forallb (P a) all_bytes) all_bytes = true ->
  forall a b, P a b = true.
Proof.
  intros H a b.
  apply (forall_byte (P a)). revert a.
  apply (forall_byte (fun a => forallb (P a) all_bytes)), H.
Qed.

Lemma data_char_spec n :
  data_char n = true ->
  Ascii.eqb (table_b2a_base64 n) BASE64_PAD = false
  /\ table_a2b_base64 (table_b2a_base64 n) = n
  /\ (N_of_ascii (table_b2a_base64 n) <? 128)%N = true
  /\ (64 <=? n)%N = false.
Proof.
  unfold data_char. rewrite !andb_true_iff, negb_true_iff.
  intros [[[H1 H2] H3] H4].
  apply N.eqb_eq in H2. apply N.ltb_lt in H4.
  repeat split; auto. apply N.leb_gt, H4.
Qed.

Lemma sextet0_data a : data_char (sextet0 a) = true.
Proof. revert a. apply forall_byte. vm_compute. reflexivity. Qed.

Lemma sextet1_data a b : data_char (sextet1 a b) = true.
Proof. revert a b. apply forall_byte2. vm_compute. reflexivity. Qed.

Lemma sextet2_data b c : data_char (sextet2 b c) = true.
Proof. revert b c. apply forall_byte2. vm_compute. reflexivity. Qed.

Lemma sextet3_data c : data_char (sextet3 c) = true.
Proof. revert c. apply forall_byte. vm_compute. reflexivity. Qed.

(** The tails of one and two bytes end in a sextet with zero low bits. *)
Lemma tail1_data a :
  data_char (N.shiftl (N.land (Byte.to_N a) 3) 4) = true.
Proof. revert a. apply forall_byte. vm_compute. reflexivity. Qed.

Lemma tail2_data b :
  data_char (N.shiftl (N.land (Byte.to_N b) 15) 2) = true.
Proof. revert b. apply forall_byte. vm_compute. reflexivity. Qed.

(** What the decoder writes from consecutive sextets. *)
Lemma first_byte a b :
  byte_of_N (N.lor (N.shiftl (sextet0 a) 2) (N.shiftr (sextet1 a b) 4)) = a.
Proof.
  apply Byte.byte_dec_bl. revert a b.
  apply (forall_byte2 (fun a b =>
    Byte.eqb (byte_of_N (N.lor (N.shiftl (sextet0 a) 2)
                               (N.shiftr (sextet1 a b) 4))) a)).
  vm_compute. reflexivity.
Qed.

Lemma first_byte_tail a :
  byte_of_N (N.lor (N.shiftl (sextet0 a) 2)
                   (N.shiftr (N.shiftl (N.land (Byte.to_N a) 3) 4) 4)) = a.
Proof.
  apply Byte.byte_dec_bl. revert a.
  apply (forall_byte (fun a =>
    Byte.eqb (byte_of_N (N.lor (N.shiftl (sextet0 a) 2)
               (N.shiftr (N.shiftl (N.land (Byte.to_N a) 3) 4) 4))) a)).
  vm_compute. reflexivity.
Qed.

Lemma sextet1_low a b :
  N.land (sextet1 a b) 15 = N.shiftr (Byte.to_N b) 4.
Proof.
  apply N.eqb_eq. revert a b.
  apply (forall_byte2 (fun a b =>
    (N.land (sextet1 a b) 15 =? N.shiftr (Byte.to_N b) 4)%N)).
  vm_compute. reflexivity.
Qed.

Lemma sextet2_high b c :
  N.shiftr (sextet2 b c) 2 = N.land (Byte.to_N b) 15.
Proof.
  apply N.eqb_eq. revert b c.
  apply (forall_byte2 (fun b c =>
    (N.shiftr (sextet2 b c) 2 =? N.land (Byte.to_N b) 15)%N)).
  vm_compute. reflexivity.
Qed.

Lemma nibbles b :
  byte_of_N (N.lor (N.shiftl (N.shiftr (Byte.to_N b) 4) 4)
                   (N.land (Byte.to_N b) 15)) = b.
Proof.
  apply Byte.byte_dec_bl. revert b.
  apply (forall_byte (fun b =>
    Byte.eqb (byte_of_N (N.lor (N.shiftl (N.shiftr (Byte.to_N b) 4) 4)
                               (N.land (Byte.to_N b) 15))) b)).
  vm_compute. reflexivity.
Qed.

Lemma second_byte a b c :
  byte_of_N (N.lor (N.shiftl (N.land (sextet1 a b) 15) 4)
                   (N.shiftr (sextet2 b c) 2)) = b.
Proof. rewrite sextet1_low, sextet2_high. apply nibbles. Qed.

Lemma second_byte_tail a b :
  byte_of_N (N.lor (N.shiftl (N.land (sextet1 a b) 15) 4)
                   (N.shiftr (N.shiftl (N.land (Byte.to_N b) 15) 2) 2)) = b.
Proof.
  apply Byte.byte_dec_bl. revert a b.
  apply (forall_byte2 (fun a b =>
    Byte.eqb (byte_of_N (N.lor (N.shiftl (N.land (sextet1 a b) 15) 4)
               (N.shiftr (N.shiftl (N.land (Byte.to_N b) 15) 2) 2))) b)).
  vm_compute. reflexivity.
Qed.

Lemma third_byte b c :
  byte_of_N (N.lor (N.shiftl (N.land (sextet2 b c) 3) 6) (sextet3 c)) = c.
Proof.
  apply Byte.byte_dec_bl. revert b c.
  apply (forall_byte2 (fun b c =>
    Byte.eqb (byte_of_N (N.lor (N.shiftl (N.land (sextet2 b c) 3) 6)
                               (sextet3 c))) c)).
  vm_compute. reflexivity.
Qed.

(** One step of the decoding loop on a data character. *)
Lemma a2b_loop_data n s q l p out :
  data_char n = true ->
  a2b_loop (String (table_b2a_base64 n) s) q l p out =
  match q with
  | 0 => a2b_loop s 1 n 0 out
  | 1 =>
      a2b_loop s 2 (N.land n 15) 0
        (out ++ [byte_of_N (N.lor (N.shiftl l 2) (N.shiftr n 4))])
  | 2 =>
      a2b_loop s 3 (N.land n 3) 0
        (out ++ [byte_of_N (N.lor (N.shiftl l 4) (N.shiftr n 2))])
  | _ => a2b_loop s 0 0 0 (out ++ [byte_of_N (N.lor (N.shiftl l 6) n)])
  end.
Proof.
  intros H. apply data_char_spec in H as (Hpad & Htab & _ & Hlt).
  cbn [a2b_loop]. rewrite Hpad. cbv zeta. rewrite Htab, Hlt.
  reflexivity.
Qed.

(** Induction on a list three elements at a time. *)
Lemma list_ind3 {A} (P : list A -> Prop) :
  P [] -> (forall a, P [a]) -> (forall a b, P [a; b]) ->
  (forall a b c l, P l -> P (a :: b :: c :: l)) ->
  forall l, P l.
Proof.
  intros H0 H1 H2 H3 l.
  enough (P l /\ (forall a, P (a :: l)) /\ (forall a b, P (a :: b :: l)))
    by tauto.
  induction l as [|x l (IH0 & IH1 & IH2)]; repeat split; auto.
Qed.

(** The decoder, started between two groups, reads back what the encoder
    wrote. *)
Lemma a2b_loop_b2a (d out : bytes) :
  a2b_loop (b2a_base64 d) 0 0 0 out = inr (out ++ d).
Proof.
  revert out. induction d as [|a|a b|a b c d IH] using list_ind3;
    intros out.
  - cbn. now rewrite app_nil_r.
  - cbn [b2a_base64]. cbv zeta.
    change (N.shiftr (Byte.to_N a) 2) with (sextet0 a).
    rewrite (a2b_loop_data _ _ _ _ _ _ (sextet0_data a)).
    rewrite (a2b_loop_data _ _ _ _ _ _ (tail1_data a)).
    rewrite first_byte_tail. reflexivity.
  - cbn [b2a_base64]. cbv zeta.
    change (N.shiftr (Byte.to_N a) 2) with (sextet0 a).
    change (N.lor (N.shiftl (N.land (Byte.to_N a) 3) 4)
                  (N.shiftr (Byte.to_N b) 4)) with (sextet1 a b).
    rewrite (a2b_loop_data _ _ _ _ _ _ (sextet0_data a)).
    rewrite (a2b_loop_data _ _ _ _ _ _ (sextet1_data a b)).
    rewrite (a2b_loop_data _ _ _ _ _ _ (tail2_data b)).
    rewrite first_byte, second_byte_tail.
    cbn. now rewrite <- app_assoc.
  - cbn [b2a_base64]. cbv zeta.
    change (N.shiftr (Byte.to_N a) 2) with (sextet0 a).
    change (N.lor (N.shiftl (N.land (Byte.to_N a) 3) 4)
                  (N.shiftr (Byte.to_N b) 4)) with (sextet1 a b).
    change (N.lor (N.shiftl (N.land (Byte.to_N b) 15) 2)
                  (N.shiftr (Byte.to_N c) 6)) with (sextet2 b c).
    change (N.land (Byte.to_N c) 63) with (sextet3 c).
    rewrite (a2b_loop_data _ _ _ _ _ _ (sextet0_data a)).
    rewrite (a2b_loop_data _ _ _ _ _ _ (sextet1_data a b)).
    rewrite (a2b_loop_data _ _ _ _ _ _ (sextet2_data b c)).
    rewrite (a2b_loop_data _ _ _ _ _ _ (sextet3_data c)).
    rewrite first_byte, second_byte, third_byte, IH.
    now rewrite <- !app_assoc.
Qed.

Lemma is_ascii_data n s :
  data_char n = true ->
  is_ascii_str (String (table_b2a_base64 n) s) = is_ascii_str s.
Proof.
  intros H. apply data_char_spec in H as (_ & _ & Hasc & _).
  cbn [is_ascii_str]. now rewrite Hasc.
Qed.

(** The encoder writes ASCII only. *)
Lemma b2a_is_ascii (d : bytes) : is_ascii_str (b2a_base64 d) = true.
Proof.
  induction d as [|a|a b|a b c d IH] using list_ind3.
  - reflexivity.
  - cbn [b2a_base64]. cbv zeta.
    rewrite (is_ascii_data _ _ (sextet0_data a)).
    rewrite (is_ascii_data _ _ (tail1_data a)). reflexivity.
  - cbn [b2a_base64]. cbv zeta.
    rewrite (is_ascii_data _ _ (sextet0_data a)).
    rewrite (is_ascii_data _ _ (sextet1_data a b)).
    rewrite (is_ascii_data _ _ (tail2_data b)). reflexivity.
  - cbn [b2a_base64]. cbv zeta.
    rewrite (is_ascii_data _ _ (sextet0_data a)).
    rewrite (is_ascii_data _ _ (sextet1_data a b)).
    rewrite (is_ascii_data _ _ (sextet2_data b c)).
    rewrite (is_ascii_data _ _ (sextet3_data c)). exact IH.
Qed.

(** Decoding an encoding gives the bytes back. *)
Lemma b64decode_b64encode (d : bytes) : b64decode (b64encode d) = inr d.
Proof.
  unfold b64decode, b64encode, a2b_base64.
  rewrite b2a_is_ascii. apply a2b_loop_b2a.
Qed.

End Base64Facts.

(** * Facts about string slicing *)

(** A slice holds at most the characters asked for, and all of them when
    the string has that many. *)
Lemma str_prefix_len n s : str_len (str_prefix n s) = Nat.min n (str_len s).
Proof.
  revert n. induction s as [|c s IH]; intros n; cbn [str_prefix str_len].
  - now rewrite Nat.min_0_r.
  - destruct (is_continuation c) eqn:Hc.
    + cbn [str_len]. rewrite Hc. apply IH.
    + destruct n as [|n]; [reflexivity|].
      cbn [str_len]. rewrite Hc, IH. reflexivity.
Qed.

(** A string no longer than the bound is its own slice, whatever the
    number of bytes its characters take. *)
Lemma str_prefix_short n s : str_len s <= n -> str_prefix n s = s.
Proof.
  revert n. induction s as [|c s IH]; intros n; cbn [str_prefix str_len];
    [reflexivity|].
  destruct (is_continuation c).
  - intros H. now rewrite IH.
  - destruct n as [|n]; [lia|]. intros H. rewrite IH by lia. reflexivity.
Qed.

(** On ASCII text a slice is the byte-wise prefix. *)
Lemma str_prefix_ascii n s :
  Base64.is_ascii_str s = true -> str_prefix n s = substring 0 n s.
Proof.
  revert n. induction s as [|c s IH]; intros n; cbn [Base64.is_ascii_str].
  - destruct n; reflexivity.
  - rewrite andb_true_iff. intros [Hc Hs]. cbn [str_prefix].
    assert (is_continuation c = false) as ->.
    { unfold is_continuation. apply N.ltb_lt in Hc.
      apply andb_false_iff. left. apply N.leb_gt. lia. }
    destruct n as [|n]; [reflexivity|]. cbn [substring]. now rewrite IH.
Qed.

(** * Facts about the monad and the methods *)

Lemma steps_refl P st : steps P st st.
Proof.
  repeat split; auto. exists []. split; [now rewrite app_nil_r | constructor].
Qed.

Lemma steps_trans P st1 st2 st3 :
  steps P st1 st2 -> steps P st2 st3 -> steps P st1 st3.
Proof.
  intros (Ha & Hb & Hc & evs & Ht & Hp) (Ha' & Hb' & Hc' & evs' & Ht' & Hp').
  repeat split; try congruence; auto.
  exists (evs ++ evs'). split.
  - rewrite Ht', Ht. now rewrite <- app_assoc.
  - apply Forall_app. auto.
Qed.

Lemma bind_run {A B} (m : M A) (k : A -> M B) st :
  (m ≫= k) st =
  match m st with
  | (inl e, st') => (inl e, st')
  | (inr a, st') => k a st'
  end.
Proof. reflexivity. Qed.

Lemma String_nonempty a s : String a s <> "".
Proof. discriminate. Qed.

Lemma bind_ret_run {A B} (a : A) (k : A -> M B) st :
  (mret a ≫= k) st = k a st.
Proof. reflexivity. Qed.

Lemma bind_print_run {B} line (k : unit -> M B) st :
  (print line ≫= k) st = k tt (printed st line).
Proof. reflexivity. Qed.

Lemma bind_get_self_run {B} (k : NanoBananaMCPServer -> M B) st :
  (get_self ≫= k) st = k (self st) st.
Proof. reflexivity. Qed.

Lemma bind_raise_run {A B} e (k : A -> M B) st :
  (raise e ≫= k) st = (inl e, st).
Proof. reflexivity. Qed.

Lemma ret_run {A} (a : A) st : (mret a : M A) st = (inr a, st).
Proof. reflexivity. Qed.

Create Rewrite HintDb run.
#[global] Hint Rewrite @bind_ret_run @bind_print_run @bind_get_self_run
  @bind_raise_run @ret_run : run.

(** Run the straight-line prefix of a method. *)
Ltac run := autorewrite with run.

Lemma respects_ret P {A} (a : A) : respects P (mret a : M A).
Proof. intros st. apply steps_refl. Qed.

Lemma respects_raise P {A} e : respects P (raise e : M A).
Proof. intros st. apply steps_refl. Qed.

Lemma respects_bind P {A B} (m : M A) (k : A -> M B) :
  respects P m -> (forall a, respects P (k a)) -> respects P (m ≫= k).
Proof.
  intros Hm Hk st. rewrite bind_run. specialize (Hm st).
  destruct (m st) as [[e|a] st']; cbn in *; auto.
  eapply steps_trans; [exact Hm | apply Hk].
Qed.

Lemma respects_try_except P {A} (m : M A) (h : PyException -> M A) :
  respects P m -> (forall e, respects P (h e)) -> respects P (try_except m h).
Proof.
  intros Hm Hh st. unfold try_except. specialize (Hm st).
  destruct (m st) as [[e|a] st']; cbn in *; auto.
  eapply steps_trans; [exact Hm | apply Hh].
Qed.

Lemma respects_attempt P {A} (m : M A) :
  respects P m -> respects P (attempt m).
Proof.
  intros Hm st. unfold attempt. specialize (Hm st).
  destruct (m st) as [r st']. exact Hm.
Qed.

Lemma respects_get_self P : respects P get_self.
Proof. intros st. apply steps_refl. Qed.

Lemma respects_ask P {A} (f : list event -> result A) : respects P (ask f).
Proof. intros st. apply steps_refl. Qed.

Lemma respects_emit (P : event -> Prop) ev : P ev -> respects P (emit ev).
Proof.
  intros Hev st. repeat split; auto.
  exists [ev]. split; [reflexivity | repeat constructor; exact Hev].
Qed.

Lemma respects_print (P : event -> Prop) line :
  P (Print line) -> respects P (print line).
Proof. apply respects_emit. Qed.

Lemma respects_bind_ret P {A B} (a : A) (k : A -> M B) :
  respects P (k a) -> respects P (mret a ≫= k).
Proof. intros H st. exact (H st). Qed.

Create HintDb respects.
#[global] Hint Resolve respects_ret respects_raise respects_get_self
  respects_ask respects_attempt : respects.

(** Break a [respects] goal down along the structure of the method. *)
Ltac respects_step :=
  first
    [ apply respects_bind; [| intros ? ]
    | apply respects_try_except; [| intros ? ]
    | apply respects_attempt
    | apply respects_ret
    | apply respects_raise
    | apply respects_get_self
    | apply respects_ask
    | apply respects_print
    | apply respects_emit ].

Section ServerFacts.

Context (E : Externals).

(** *** [_get_client] *)

Lemma get_client_cached st c :
  client (self st) = Some c -> _get_client E st = (inr c, st).
Proof.
  intros H. unfold _get_client. rewrite bind_run. cbn. now rewrite H.
Qed.

Lemma get_client_fresh st :
  client (self st) = None ->
  Client_init E (trace st) (api_key (self st)) = None ->
  let c := {| client_api_key := api_key (self st);
              client_id := length (trace st) |} in
  _get_client E st =
  (inr c,
   {| self := {| api_key := api_key (self st);
                 model_name := model_name (self st);
                 client := Some c |};
      trace := (trace st ++ [NewClient (api_key (self st))])
               ++ [Print "✅ Nano Banana MCP Server: Created AI Studio client"]
   |}).
Proof.
  intros Hnone Hok. unfold _get_client. rewrite bind_run. cbn.
  rewrite Hnone. rewrite bind_run. unfold new_Client. rewrite Hok.
  reflexivity.
Qed.

Lemma get_client_raises st e :
  client (self st) = None ->
  Client_init E (trace st) (api_key (self st)) = Some e ->
  _get_client E st =
  (inl e,
   {| self := self st;
      trace := trace st ++ [NewClient (api_key (self st))] |}).
Proof.
  intros Hnone Hbad. unfold _get_client. rewrite bind_run. cbn.
  rewrite Hnone. rewrite bind_run. unfold new_Client. rewrite Hbad.
  reflexivity.
Qed.

(** Whatever [_get_client] returns is what the server now stores. *)
Lemma get_client_stored st c st' :
  _get_client E st = (inr c, st') -> client (self st') = Some c.
Proof.
  destruct (client (self st)) as [c0|] eqn:Hc.
  - rewrite (get_client_cached _ _ Hc). now intros [= <- <-].
  - destruct (Client_init E (trace st) (api_key (self st))) as [e|] eqn:Hi.
    + rewrite (get_client_raises _ _ Hc Hi). discriminate.
    + rewrite (get_client_fresh _ Hc Hi). now intros [= <- <-].
Qed.

Section Respects.

Context (P : event -> Prop).
Context (HPrint : forall line, P (Print line)).
Context (HNew : forall key, P (NewClient key)).

Lemma respects_get_client : respects P (_get_client E).
Proof.
  intros st.
  destruct (client (self st)) as [c0|] eqn:Hc.
  - rewrite (get_client_cached _ _ Hc). apply steps_refl.
  - destruct (Client_init E (trace st) (api_key (self st))) as [e|] eqn:Hi.
    + rewrite (get_client_raises _ _ Hc Hi). cbn.
      repeat split; auto. exists [NewClient (api_key (self st))].
      split; [reflexivity | repeat constructor; apply HNew].
    + rewrite (get_client_fresh _ Hc Hi). cbn.
      repeat split; auto.
      * intros c. rewrite Hc. discriminate.
      * eexists. rewrite <- app_assoc. split; [reflexivity|].
        repeat constructor; auto.
Qed.

Lemma respects_generate_content c model contents :
  P (GenerateContent c model contents) ->
  respects P (models_generate_content E c model contents).
Proof.
  intros Hev st. repeat split; auto.
  eexists. split; [reflexivity | repeat constructor; exact Hev].
Qed.

Lemma respects_extract_image ps : respects P (extract_image ps).
Proof.
  induction ps as [|p ps IH]; cbn [extract_image].
  - apply respects_ret.
  - destruct (inline_data p) as [| |blob]; auto.
    destruct (data blob) as [| |[|b d]]; auto.
    repeat respects_step; auto.
Qed.

Lemma respects_inspect response :
  respects P (generate_image_inspect response).
Proof.
  unfold generate_image_inspect, len_candidates, first_candidate_parts.
  repeat respects_step; auto.
  - destruct (candidates response); respects_step.
  - destruct (candidates response) as [[|c cs]|]; try respects_step.
    destruct (content c) as [ct|]; try respects_step.
    destruct (parts ct); respects_step.
  - apply respects_extract_image.
  - match goal with |- context [truthy_bytes ?x] =>
      destruct (truthy_bytes x) end; respects_step.
Qed.

Lemma respects_request request :
  (forall c model contents,
      (truthy_bytes (input_image_data request) = false ->
       contents = [ContentText (prompt request)]) ->
      P (GenerateContent c model contents)) ->
  (forall d mime,
      truthy_bytes (input_image_data request) = true ->
      P (PartFromBytes d mime)) ->
  respects P (generate_image_request E request).
Proof.
  intros HGen HPart. unfold generate_image_request.
  respects_step; [apply respects_print, HPrint|].
  respects_step; [apply respects_get_client|].
  destruct (input_image_data request) as [[|b d]|] eqn:Hin.
  - apply respects_bind_ret. respects_step; [respects_step|].
    apply respects_generate_content, HGen. reflexivity.
  - unfold from_bytes.
    respects_step; [repeat respects_step; auto|].
    respects_step; [respects_step|].
    apply respects_generate_content, HGen. discriminate.
  - apply respects_bind_ret. respects_step; [respects_step|].
    apply respects_generate_content, HGen. reflexivity.
Qed.

Lemma respects_generate_image request :
  (forall c model contents,
      (truthy_bytes (input_image_data request) = false ->
       contents = [ContentText (prompt request)]) ->
      P (GenerateContent c model contents)) ->
  (forall d mime,
      truthy_bytes (input_image_data request) = true ->
      P (PartFromBytes d mime)) ->
  respects P (generate_image E request).
Proof.
  intros HGen HPart.
  unfold generate_image. apply respects_try_except.
  - unfold generate_image_try. apply respects_bind.
    + apply respects_request; assumption.
    + intros response. apply respects_inspect.
  - intros e. unfold generate_image_except.
    repeat respects_step; auto.
Qed.

End Respects.

(** *** The extraction loop *)

Lemma extract_image_none ps st :
  Forall (fun p => carried_image p = None) ps ->
  extract_image ps st = (inr None, st).
Proof.
  induction 1 as [|p ps Hp _ IH]; cbn [extract_image]; [reflexivity|].
  unfold carried_image in Hp.
  destruct (inline_data p) as [| |blob]; auto.
  destruct (data blob) as [| |[|b d]]; auto. discriminate.
Qed.

Lemma extract_image_first pre p post d st :
  Forall (fun q => carried_image q = None) pre ->
  carried_image p = Some d ->
  extract_image (pre ++ p :: post) st =
  (inr (Some d),
   printed st ("✅ Nano Banana MCP: Extracted generated image ("
               +:+ str_of_nat (length d) +:+ " bytes)")).
Proof.
  intros Hpre Hp. induction Hpre as [|q pre Hq _ IH].
  - cbn [app extract_image]. unfold carried_image in Hp.
    destruct (inline_data p) as [| |blob]; try discriminate.
    destruct (data blob) as [| |[|b d']]; try discriminate.
    injection Hp as <-. reflexivity.
  - cbn [app extract_image]. unfold carried_image in Hq.
    destruct (inline_data q) as [| |blob]; auto.
    destruct (data blob) as [| |[|b d']]; auto. discriminate.
Qed.

(** The loop never raises, and what it finds is never empty. *)
Lemma extract_image_cases ps st :
  exists st',
    extract_image ps st = (inr None, st')
    \/ exists b d, extract_image ps st = (inr (Some (b :: d)), st').
Proof.
  induction ps as [|p ps IH]; cbn [extract_image].
  - exists st. now left.
  - destruct (inline_data p) as [| |blob]; auto.
    destruct (data blob) as [| |[|b d]]; auto.
    eexists. right. exists b, d. reflexivity.
Qed.

(** *** [generate_image], stage by stage *)

Lemma generate_image_run request st :
  generate_image E request st =
  match generate_image_request E request st with
  | (inl e, st1) => generate_image_except e st1
  | (inr response, st1) =>
      match generate_image_inspect response st1 with
      | (inl e, st2) => generate_image_except e st2
      | (inr r, st2) => (inr r, st2)
      end
  end.
Proof.
  unfold generate_image, try_except, generate_image_try.
  rewrite bind_run.
  destruct (generate_image_request E request st) as [[e|response] st1];
    reflexivity.
Qed.

Lemma generate_image_except_run e st :
  generate_image_except e st =
  (inr (failure ("Image generation failed: " +:+ exc_str e)),
   printed st ("Nano Banana MCP: Error generating image: " +:+ exc_str e)).
Proof. reflexivity. Qed.

Lemma inspect_zero_candidates response st :
  candidates response = Some [] ->
  generate_image_inspect response st =
  (inl (Raise IndexError "list index out of range"),
   printed st "✅ Nano Banana MCP: Received response with 0 candidates").
Proof.
  intros H. unfold generate_image_inspect, len_candidates,
    first_candidate_parts.
  rewrite H. reflexivity.
Qed.

Lemma inspect_parts response c cs ps st :
  candidates response = Some (c :: cs) ->
  content c = Some {| parts := Some ps |} ->
  generate_image_inspect response st =
  match
    extract_image ps
      (printed st ("✅ Nano Banana MCP: Received response with "
                   +:+ str_of_nat (S (length cs)) +:+ " candidates"))
  with
  | (inl e, st') => (inl e, st')
  | (inr g, st') =>
      (inr (if truthy_bytes g then
              {| success := true;
                 generated_image_data := g;
                 error_message := None;
                 model_used := model_name (self st') |}
            else failure "No image data found in model response"),
       st')
  end.
Proof.
  intros Hc Hct. unfold generate_image_inspect, len_candidates,
    first_candidate_parts.
  rewrite Hc, Hct. cbn [parts length]. run. rewrite bind_run.
  match goal with |- context [extract_image ps ?s] =>
    destruct (extract_image ps s) as [[e|g] st'] end; [reflexivity|].
  run. destruct (truthy_bytes g); reflexivity.
Qed.

(** Whatever the response, inspection yields one of the two result
    shapes or raises. *)
Lemma inspect_shapes response st r st' :
  generate_image_inspect response st = (inr r, st') ->
  (exists b d,
      r = {| success := true;
             generated_image_data := Some (b :: d);
             error_message := None;
             model_used := model_name (self st') |})
  \/ r = failure "No image data found in model response".
Proof.
  unfold generate_image_inspect, len_candidates, first_candidate_parts.
  destruct (candidates response) as [[|c cs]|]; try discriminate.
  destruct (content c) as [[[ps|]]|]; try discriminate.
  cbn [parts]. run. rewrite bind_run.
  match goal with |- context [extract_image ps ?s] =>
    destruct (extract_image_cases ps s) as (st2 & [H | (b & d & H)]);
    rewrite H end; run; cbn; intros [= <- <-]; eauto.
Qed.

(** Every response of [generate_image] has one of the two shapes. *)
Lemma generate_image_shapes request st r st' :
  generate_image E request st = (inr r, st') ->
  (exists b d name,
      r = {| success := true;
             generated_image_data := Some (b :: d);
             error_message := None;
             model_used := name |})
  \/ exists msg, r = failure msg.
Proof.
  rewrite generate_image_run.
  destruct (generate_image_request E request st) as [[e|response] st1].
  - rewrite generate_image_except_run. intros [= <- <-]. eauto.
  - destruct (generate_image_inspect response st1) as [[e|r'] st2] eqn:Hi.
    + rewrite generate_image_except_run. intros [= <- <-]. eauto.
    + intros [= <- <-].
      apply inspect_shapes in Hi as [(b & d & ->) | ->]; eauto 6.
Qed.

Lemma generate_image_returns request st :
  exists response st', generate_image E request st = (inr response, st').
Proof.
  rewrite generate_image_run.
  destruct (generate_image_request E request st) as [[e|response] st1].
  - rewrite generate_image_except_run. eauto.
  - destruct (generate_image_inspect response st1) as [[e|r] st2].
    + rewrite generate_image_except_run. eauto.
    + eauto.
Qed.

(** *** The contract of [generate_image] *)

(** C1. [generate_image] always returns a response, for every request,
    every server state and every behaviour of the outside world: it never
    raises.  Whenever its [try] block (client acquisition, content
    assembly, the remote call, response inspection) raises [e], the
    response is the failure value whose message is
    "Image generation failed: " followed by [str(e)]; otherwise it is the
    block's own result. *)
Theorem generate_image_never_raises request st :
  exists response st',
    generate_image E request st = (inr response, st')
    /\ match generate_image_try E request st with
       | (inl e, _) =>
           response = failure ("Image generation failed: " +:+ exc_str e)
       | (inr r, _) => response = r
       end.
Proof.
  unfold generate_image, try_except.
  destruct (generate_image_try E request st) as [[e|r] st1].
  - rewrite generate_image_except_run. eauto.
  - eauto.
Qed.

(** The value the loop finds does not depend on the state it runs in, and
    the loop leaves the server object alone. *)
Lemma extract_image_value (ps : list Part) :
  exists g, forall st,
    exists st', extract_image ps st = (inr g, st') /\ self st' = self st.
Proof.
  induction ps as [|p ps (g & IH)]; cbn [extract_image].
  - exists None. intros st. exists st. split; reflexivity.
  - destruct (inline_data p) as [| |blob]; try (exists g; exact IH).
    destruct (data blob) as [| |[|b d]]; try (exists g; exact IH).
    exists (Some (b :: d)). intros st. eexists. split; reflexivity.
Qed.

(** Inspection looks at the first candidate only: the candidates after it
    do not change the outcome. *)
Lemma inspect_first_only c cs st :
  (generate_image_inspect {| candidates := Some (c :: cs) |} st).1 =
  (generate_image_inspect {| candidates := Some [c] |} st).1.
Proof.
  destruct (content c) as [[[ps|]]|] eqn:Hct.
  - rewrite (inspect_parts {| candidates := Some (c :: cs) |} c cs ps st
               eq_refl Hct).
    rewrite (inspect_parts {| candidates := Some [c] |} c [] ps st
               eq_refl Hct).
    destruct (extract_image_value ps) as (g & Hg).
    match goal with |- context [extract_image ps ?s] =>
      destruct (Hg s) as (st1 & -> & Hs1) end.
    match goal with |- _ = (match extract_image ps ?s with _ => _ end).1 =>
      destruct (Hg s) as (st2 & -> & Hs2) end.
    cbn [fst]. destruct (truthy_bytes g); [|reflexivity].
    cbn [printed self] in Hs1, Hs2. now rewrite Hs1, Hs2.
  - unfold generate_image_inspect, len_candidates, first_candidate_parts.
    cbn [candidates]. rewrite Hct. reflexivity.
  - unfold generate_image_inspect, len_candidates, first_candidate_parts.
    cbn [candidates]. rewrite Hct. reflexivity.
Qed.

(** C2, amended.  Once the remote call has answered: a response whose
    first candidate has a content with a parts list (possibly empty) in
    which no part carries non-empty inline data gives the failure "No image
    data found in model response".  A response with nothing to inspect
    there (its candidates are an empty list or [None], or its first
    candidate has no content, or that content has no parts list) makes the
    inspection raise, and gives the failure whose message is "Image
    generation failed: " followed by the text of that fault.  Neither
    raises. *)
Theorem no_image_data_result request st response st1 :
  generate_image_request E request st = (inr response, st1) ->
  (forall c cs ps,
      candidates response = Some (c :: cs) ->
      content c = Some {| parts := Some ps |} ->
      Forall (fun p => carried_image p = None) ps ->
      exists st2,
        generate_image E request st =
        (inr (failure "No image data found in model response"), st2))
  /\ (candidates response = Some []
      \/ candidates response = None
      \/ (exists c cs,
             candidates response = Some (c :: cs)
             /\ (content c = None \/ content c = Some {| parts := None |})) ->
      exists e st' st2,
        generate_image_inspect response st1 = (inl e, st')
        /\ generate_image E request st =
           (inr (failure ("Image generation failed: " +:+ exc_str e)), st2)).
Proof.
  intros Hreq. split.
  - intros c cs ps Hc Hct Hnone. rewrite generate_image_run, Hreq.
    rewrite (inspect_parts _ _ _ _ _ Hc Hct).
    rewrite (extract_image_none _ _ Hnone). eauto.
  - intros Hbad. rewrite generate_image_run, Hreq.
    assert (exists e st', generate_image_inspect response st1 = (inl e, st'))
      as (e & st' & Hi).
    { unfold generate_image_inspect, len_candidates, first_candidate_parts.
      destruct Hbad as [-> | [-> | (c & cs & -> & [-> | ->])]];
        do 2 eexists; reflexivity. }
    rewrite Hi, generate_image_except_run. eauto 6.
Qed.

(** C3. For every prompt, a request without an input image gets a
    response of exactly one of two shapes: success with non-empty image
    bytes and no error message, or failure with a non-empty error message
    and no image bytes. *)
Theorem generate_image_two_shapes prompt mime st :
  exists response st',
    generate_image E
      {| prompt := prompt;
         input_image_data := None;
         input_image_mime_type := mime |} st = (inr response, st')
    /\ let succeeded :=
         success response = true
         /\ (exists d, generated_image_data response = Some d /\ d <> [])
         /\ error_message response = None in
       let failed :=
         success response = false
         /\ (exists msg, error_message response = Some msg /\ msg <> "")
         /\ generated_image_data response = None in
       (succeeded \/ failed) /\ ~ (succeeded /\ failed).
Proof.
  set (request := {| prompt := prompt |}).
  assert (Hfail : forall msg,
    let response := failure ("Image generation failed: " +:+ msg) in
    let succeeded :=
      success response = true
      /\ (exists d, generated_image_data response = Some d /\ d <> [])
      /\ error_message response = None in
    let failed :=
      success response = false
      /\ (exists m, error_message response = Some m /\ m <> "")
      /\ generated_image_data response = None in
    (succeeded \/ failed) /\ ~ (succeeded /\ failed)).
  { intros msg. cbn. split.
    - right. split; [reflexivity|]. split; [|reflexivity].
      eexists. split; [reflexivity | discriminate].
    - intros [[? _] _]. discriminate. }
  rewrite generate_image_run.
  destruct (generate_image_request E request st) as [[e|response] st1].
  - rewrite generate_image_except_run. do 2 eexists.
    split; [reflexivity | apply Hfail].
  - destruct (generate_image_inspect response st1) as [[e|r] st2] eqn:Hi.
    + rewrite generate_image_except_run. do 2 eexists.
      split; [reflexivity | apply Hfail].
    + do 2 eexists. split; [reflexivity|].
      apply inspect_shapes in Hi as [(b & d & ->) | ->]; cbn; split.
      * left. split; [reflexivity|]. split; [|reflexivity].
        eexists. split; [reflexivity | discriminate].
      * intros [_ [? _]]. discriminate.
      * right. split; [reflexivity|]. split; [|reflexivity].
        eexists. split; [reflexivity | discriminate].
      * intros [[? _] _]. discriminate.
Qed.

(** C7. Once the remote call has answered with at least one candidate,
    only the first candidate's parts decide the response, in order.  The
    first part that carries non-empty inline data gives the image returned,
    whatever the parts after it hold.  When no part of the first candidate
    carries an image the response is the no-image failure, whatever the
    later candidates hold.  In every case the response is what inspecting
    the first candidate alone gives. *)
Theorem first_inline_image_wins request st response st1 c cs :
  generate_image_request E request st = (inr response, st1) ->
  candidates response = Some (c :: cs) ->
  (forall pre p post d,
      content c = Some {| parts := Some (pre ++ p :: post) |} ->
      Forall (fun q => carried_image q = None) pre ->
      carried_image p = Some d ->
      generate_image E request st =
      (inr {| success := true;
              generated_image_data := Some d;
              error_message := None;
              model_used := model_name (self st1) |},
       printed
         (printed st1
            ("✅ Nano Banana MCP: Received response with "
             +:+ str_of_nat (S (length cs)) +:+ " candidates"))
         ("✅ Nano Banana MCP: Extracted generated image ("
          +:+ str_of_nat (length d) +:+ " bytes)")))
  /\ (forall ps,
         content c = Some {| parts := Some ps |} ->
         Forall (fun q => carried_image q = None) ps ->
         generate_image E request st =
         (inr (failure "No image data found in model response"),
          printed st1
            ("✅ Nano Banana MCP: Received response with "
             +:+ str_of_nat (S (length cs)) +:+ " candidates")))
  /\ (generate_image E request st).1 =
     match (generate_image_inspect {| candidates := Some [c] |} st1).1 with
     | inr r => inr r
     | inl e => inr (failure ("Image generation failed: " +:+ exc_str e))
     end.
Proof.
  intros Hreq Hc. split; [|split].
  - intros pre p post d Hct Hpre Hp. rewrite generate_image_run, Hreq.
    rewrite (inspect_parts _ _ _ _ _ Hc Hct).
    rewrite (extract_image_first _ _ _ _ _ Hpre Hp).
    assert (truthy_bytes (Some d) = true) as ->.
    { unfold carried_image in Hp.
      destruct (inline_data p) as [| |blob]; try discriminate.
      destruct (data blob) as [| |[|b d']]; try discriminate.
      now injection Hp as <-. }
    reflexivity.
  - intros ps Hct Hnone. rewrite generate_image_run, Hreq.
    rewrite (inspect_parts _ _ _ _ _ Hc Hct).
    rewrite (extract_image_none _ _ Hnone). reflexivity.
  - rewrite generate_image_run, Hreq.
    rewrite <- (inspect_first_only c cs st1).
    destruct response as [cands]. cbn [candidates] in Hc. subst cands.
    destruct (generate_image_inspect {| candidates := Some (c :: cs) |} st1)
      as [[e|r] st2]; [|reflexivity].
    rewrite generate_image_except_run. reflexivity.
Qed.

(** *** [generate_image_from_base64] *)

Lemma from_decoded_run prompt input mime st :
  generate_image_from_decoded E prompt input mime st =
  match
    generate_image E
      {| prompt := prompt;
         input_image_data := input;
         input_image_mime_type := mime |} st
  with
  | (inl e, st1) => (inl e, st1)
  | (inr response, st1) =>
      let result : gmap string pyval :=
        <["model_used" := VStr (model_used response)]>
          (<["success" := VBool (success response)]> ∅) in
      match success response, generated_image_data response with
      | true, Some (b :: d) =>
          (inr (<["generated_image_size" :=
                    VInt (Z.of_nat (length (b :: d)))]>
                  (<["generated_image_b64" :=
                      VStr (Base64.b64encode (b :: d))]> result)),
           emitted st1 (B64Encode (b :: d)))
      | _, _ =>
          (inr (<["error" := pyval_of_str (error_message response)]> result),
           st1)
      end
  end.
Proof.
  unfold generate_image_from_decoded. rewrite bind_run.
  destruct (generate_image E _ st) as [[e|response] st1]; [reflexivity|].
  cbv zeta.
  destruct (success response); [|reflexivity].
  destruct (generated_image_data response) as [[|b d]|]; reflexivity.
Qed.

Lemma from_base64_decoded prompt s mime st d :
  s <> "" ->
  Base64.b64decode s = inr d ->
  generate_image_from_base64 E prompt (Some s) mime st =
  generate_image_from_decoded E prompt (Some d) mime
    (emitted st (B64Decode s)).
Proof.
  intros Hs Hd. destruct s as [|a s]; [congruence|].
  unfold generate_image_from_base64. rewrite bind_run.
  unfold attempt, base64_b64decode. rewrite bind_run.
  cbn [emit ask]. rewrite Hd. reflexivity.
Qed.

Lemma from_base64_absent prompt b64 mime st :
  truthy_str b64 = false ->
  generate_image_from_base64 E prompt b64 mime st =
  generate_image_from_decoded E prompt None mime st.
Proof. destruct b64 as [[|a s]|]; [reflexivity | discriminate | reflexivity]. Qed.

Lemma from_base64_undecodable prompt s mime st e :
  s <> "" ->
  Base64.b64decode s = inl e ->
  generate_image_from_base64 E prompt (Some s) mime st =
  (inr (<["error" := VStr ("Failed to decode base64 input image: "
                           +:+ exc_str e)]>
          (<["success" := VBool false]> ∅)),
   emitted st (B64Decode s)).
Proof.
  intros Hs He. destruct s as [|a s]; [congruence|].
  unfold generate_image_from_base64. rewrite bind_run.
  unfold attempt, base64_b64decode. rewrite bind_run.
  cbn [emit ask]. rewrite He. reflexivity.
Qed.

(** C5. A non-empty base64 input that fails to decode makes
    [generate_image_from_base64] return a dictionary with [success] false
    and the error "Failed to decode base64 input image: " followed by the
    decoder's message.  The server object is untouched and the only event
    added to the trace is the decoding attempt: no client is built and
    the remote call is not made. *)
Theorem decode_failure_short_circuits prompt s mime st e :
  s <> "" ->
  Base64.b64decode s = inl e ->
  exists result st',
    generate_image_from_base64 E prompt (Some s) mime st = (inr result, st')
    /\ result !! "success" = Some (VBool false)
    /\ result !! "error" =
       Some (VStr ("Failed to decode base64 input image: " +:+ exc_str e))
    /\ self st' = self st
    /\ trace st' = trace st ++ [B64Decode s].
Proof.
  intros Hs He. rewrite (from_base64_undecodable _ _ _ _ _ Hs He).
  do 2 eexists. split; [reflexivity|].
  split; [|split; [|split; reflexivity]].
  - rewrite lookup_insert_ne by discriminate. apply lookup_insert_eq.
  - apply lookup_insert_eq.
Qed.

(** Past the decoding step the dictionary always names the model. *)
Lemma from_decoded_names_model prompt input mime st :
  exists result st' name,
    generate_image_from_decoded E prompt input mime st = (inr result, st')
    /\ result !! "model_used" = Some (VStr name).
Proof.
  rewrite from_decoded_run.
  destruct (generate_image_returns
              {| prompt := prompt; input_image_data := input;
                 input_image_mime_type := mime |} st)
    as (response & st1 & ->).
  cbv zeta.
  destruct (success response);
    [destruct (generated_image_data response) as [[|b d]|]|];
    do 3 eexists; (split; [reflexivity|]);
    repeat (rewrite lookup_insert_ne by discriminate);
    apply lookup_insert_eq.
Qed.

(** C6. When [generate_image_from_base64] reports success, its
    [generated_image_b64] entry decodes to exactly the bytes the
    underlying [generate_image] call returned, and
    [generated_image_size] is their length. *)
Theorem generated_image_b64_roundtrip text b64 mime st result st' :
  generate_image_from_base64 E text b64 mime st = (inr result, st') ->
  result !! "success" = Some (VBool true) ->
  exists request st0 response st1 d encoded,
    prompt request = text
    /\ generate_image E request st0 = (inr response, st1)
    /\ success response = true
    /\ generated_image_data response = Some d
    /\ result !! "generated_image_b64" = Some (VStr encoded)
    /\ Base64.b64decode encoded = inr d
    /\ result !! "generated_image_size" = Some (VInt (Z.of_nat (length d))).
Proof.
  intros Hrun Hsucc.
  assert (exists input st0,
    generate_image_from_decoded E text input mime st0 = (inr result, st'))
    as (input & st0 & Hdec).
  { destruct (truthy_str b64) eqn:Hb.
    - destruct b64 as [[|a s]|]; try discriminate.
      destruct (Base64.b64decode (String a s)) as [e|d] eqn:Hd.
      + rewrite (from_base64_undecodable _ _ _ _ _ (String_nonempty a s) Hd)
          in Hrun.
        injection Hrun as <- <-.
        rewrite lookup_insert_ne in Hsucc by discriminate.
        rewrite lookup_insert_eq in Hsucc. discriminate.
      + rewrite (from_base64_decoded _ _ _ _ _ (String_nonempty a s) Hd)
          in Hrun.
        eauto.
    - rewrite (from_base64_absent _ _ _ _ Hb) in Hrun. eauto. }
  rewrite from_decoded_run in Hdec.
  set (request := {| prompt := text; input_image_data := input |}) in Hdec.
  destruct (generate_image E request st0) as [[e|response] st1] eqn:Hgen;
    [discriminate|].
  cbv zeta in Hdec.
  exists request, st0, response, st1.
  destruct (generate_image_shapes _ _ _ _ Hgen) as [(b & d & name & ->) | (msg & ->)];
    cbn [success generated_image_data error_message model_used failure]
      in Hdec; injection Hdec as <- <-.
  - exists (b :: d), (Base64.b64encode (b :: d)).
    split; [reflexivity|]. split; [exact Hgen|].
    split; [reflexivity|]. split; [reflexivity|].
    split; [|split].
    + rewrite lookup_insert_ne by discriminate. apply lookup_insert_eq.
    + apply Base64Facts.b64decode_b64encode.
    + apply lookup_insert_eq.
  - rewrite lookup_insert_ne in Hsucc by discriminate.
    rewrite lookup_insert_ne in Hsucc by discriminate.
    rewrite lookup_insert_eq in Hsucc. discriminate.
Qed.

Lemma respects_from_decoded (P : event -> Prop) prompt input mime :
  (forall line, P (Print line)) ->
  (forall key, P (NewClient key)) ->
  (forall d, P (B64Encode d)) ->
  (forall c model contents,
      (truthy_bytes input = false -> contents = [ContentText prompt]) ->
      P (GenerateContent c model contents)) ->
  (forall d m, truthy_bytes input = true -> P (PartFromBytes d m)) ->
  respects P (generate_image_from_decoded E prompt input mime).
Proof.
  intros HPrint HNew HEnc HGen HPart.
  unfold generate_image_from_decoded. apply respects_bind.
  - apply respects_generate_image; assumption.
  - intros response. cbv zeta.
    destruct (success response); [|apply respects_ret].
    destruct (generated_image_data response) as [[|b d]|];
      try apply respects_ret.
    unfold base64_b64encode. repeat respects_step. apply HEnc.
Qed.

(** No method takes a stored client away, or changes the credential or
    the model name. *)
Lemma respects_from_base64 prompt b64 mime :
  respects (fun _ => True) (generate_image_from_base64 E prompt b64 mime).
Proof.
  destruct (truthy_str b64) eqn:Hb.
  - destruct b64 as [[|a s]|]; try discriminate.
    unfold generate_image_from_base64. apply respects_bind.
    + unfold base64_b64decode. repeat respects_step. exact I.
    + intros [e|d]; [apply respects_ret|].
      apply respects_from_decoded; auto.
  - intros st. rewrite (from_base64_absent _ _ _ _ Hb).
    apply respects_from_decoded; auto.
Qed.

(** C8. The client is a lazy singleton.  With no client stored, a call
    to [_get_client] makes exactly one [Client(api_key=...)] call with the
    server's credential and, when that call returns, stores and returns
    the new handle.  With a client stored, [_get_client] returns that
    handle and changes nothing.  And no method ever replaces a stored
    handle. *)
Theorem client_is_lazy_singleton :
  (forall st,
      client (self st) = None ->
      Client_init E (trace st) (api_key (self st)) = None ->
      exists c st',
        _get_client E st = (inr c, st')
        /\ client_api_key c = api_key (self st)
        /\ client (self st') = Some c
        /\ trace st' =
           trace st ++ [NewClient (api_key (self st));
                        Print "✅ Nano Banana MCP Server: Created AI Studio client"])
  /\ (forall st c,
         client (self st) = Some c -> _get_client E st = (inr c, st))
  /\ (forall st c,
         client (self st) = Some c ->
         client (self (_get_client E st).2) = Some c
         /\ (forall request,
                client (self (generate_image E request st).2) = Some c)
         /\ (forall prompt b64 mime,
                client (self (generate_image_from_base64 E prompt b64 mime
                                st).2) = Some c)).
Proof.
  split; [|split].
  - intros st Hnone Hok. rewrite (get_client_fresh _ Hnone Hok).
    do 2 eexists. split; [reflexivity|]. cbn.
    repeat split. now rewrite <- app_assoc.
  - apply get_client_cached.
  - intros st c Hc. split; [|split].
    + now rewrite (get_client_cached _ _ Hc).
    + intros request.
      apply (respects_generate_image (fun _ => True)); auto.
    + intros prompt b64 mime. apply respects_from_base64, Hc.
Qed.

(** C9. Without a credential, whether passed or in the environment,
    construction raises (the code's [ValueError]); the tool function,
    which builds its server from the environment, raises the same error
    without touching the trace instead of returning a failure
    dictionary.  A server that does get built holds a non-empty
    credential and no client yet. *)
Theorem missing_credential_is_fatal key :
  (truthy_str key = false ->
   truthy_str (environ E !! "GOOGLE_AI_STUDIO_API_KEY") = false ->
   __init__ E key = inl api_key_missing
   /\ forall prompt b64 mime tr,
        generate_image_with_nano_banana E prompt b64 mime tr =
        (inl api_key_missing, tr))
  /\ (forall server,
         __init__ E key = inr server ->
         api_key server <> "" /\ client server = None).
Proof.
  split.
  - intros Hkey Henv.
    assert (forall k, truthy_str k = false -> __init__ E k = inl api_key_missing)
      as Hinit.
    { intros k Hk. unfold __init__, py_or. rewrite Hk.
      destruct (environ E !! "GOOGLE_AI_STUDIO_API_KEY") as [[|a s]|];
        [reflexivity | discriminate | reflexivity]. }
    split; [apply Hinit, Hkey|].
    intros prompt b64 mime tr. unfold generate_image_with_nano_banana.
    now rewrite Hinit.
  - intros server. unfold __init__.
    destruct (py_or key (environ E !! "GOOGLE_AI_STUDIO_API_KEY"))
      as [[|a s]|]; try discriminate.
    intros [= <-]. cbn. split; [discriminate | reflexivity].
Qed.

(** C10. An empty [input_image_b64] is an absent one: the call is the
    text-only call, and the events it adds to the trace contain no
    decoding, no image part, and only the prompt in what is sent to the
    model. *)
Theorem empty_base64_is_absent prompt mime st :
  generate_image_from_base64 E prompt (Some "") mime st =
  generate_image_from_base64 E prompt None mime st
  /\ generate_image_from_base64 E prompt (Some "") mime st =
     generate_image_from_decoded E prompt None mime st
  /\ exists evs,
       trace (generate_image_from_base64 E prompt (Some "") mime st).2 =
       trace st ++ evs
       /\ Forall (text_only prompt) evs.
Proof.
  split; [reflexivity|]. split; [reflexivity|].
  change (generate_image_from_base64 E prompt (Some "") mime st)
    with (generate_image_from_decoded E prompt None mime st).
  apply (respects_from_decoded (text_only prompt)); cbn; auto.
  discriminate.
Qed.

End ServerFacts.

(** * The claims on concrete runs *)


(** C2, as stated, fails for a response with zero candidates:
    [response.candidates[0]] raises [IndexError], and the message returned
    is the generic "Image generation failed: list index out of range",
    which is not the no-image-data message and does not mention image
    data. *)
Lemma zero_candidates_counterexample :
  candidates Mock.no_candidates = Some []
  /\ (generate_image_request (Mock.world (inr Mock.no_candidates))
        Run.text_request Mock.start).1 = inr Mock.no_candidates
  /\ (generate_image (Mock.world (inr Mock.no_candidates))
        Run.text_request Mock.start).1 =
     inr (failure "Image generation failed: list index out of range")
  /\ (generate_image (Mock.world (inr Mock.no_candidates))
        Run.text_request Mock.start).1 <>
     inr (failure "No image data found in model response")
  /\ mentions "image data"
       "Image generation failed: list index out of range" = false.
Proof.
  split; [reflexivity|]. split; [reflexivity|]. split; [reflexivity|].
  split; [|reflexivity].
  vm_compute. discriminate.
Qed.

(** C4 on the failing input: with an undecodable image the dictionary has
    [success] and [error] and no [model_used]. *)
Theorem model_used_missing_on_decode_failure :
  exists result st',
    generate_image_from_base64 (Mock.world (inr Mock.no_candidates))
      "x" (Some "!!!not-base64!!!") None Mock.start = (inr result, st')
    /\ result !! "success" = Some (VBool false)
    /\ result !! "error" =
       Some (VStr "Failed to decode base64 input image: Invalid base64-encoded string: number of data characters (9) cannot be 1 more than a multiple of 4")
    /\ result !! "model_used" = None.
Proof.
  rewrite (from_base64_undecodable _ "x" "!!!not-base64!!!" None Mock.start
             (Base64.invalid_length 6)); [|discriminate|reflexivity].
  do 2 eexists. split; [reflexivity|].
  split; [|split].
  - rewrite lookup_insert_ne by discriminate. apply lookup_insert_eq.
  - rewrite lookup_insert_eq. reflexivity.
  - rewrite lookup_insert_ne by discriminate.
    rewrite lookup_insert_ne by discriminate. apply lookup_empty.
Qed.

(** The amended C2 on two runs: one candidate with only a text part, and
    no candidates. *)
Lemma no_image_data_result_witness :
  (exists st2,
      generate_image (Mock.world (inr Run.text_only_response))
        Run.text_request Mock.start =
      (inr (failure "No image data found in model response"), st2))
  /\ (exists e st' st2,
         generate_image_inspect Mock.no_candidates
           (generate_image_request (Mock.world (inr Mock.no_candidates))
              Run.text_request Mock.start).2 = (inl e, st')
         /\ generate_image (Mock.world (inr Mock.no_candidates))
              Run.text_request Mock.start =
            (inr (failure ("Image generation failed: " +:+ exc_str e)), st2)).
Proof.
  assert (H1 : generate_image_request (Mock.world (inr Run.text_only_response))
                 Run.text_request Mock.start =
               (inr Run.text_only_response,
                (generate_image_request
                   (Mock.world (inr Run.text_only_response))
                   Run.text_request Mock.start).2))
    by (vm_compute; reflexivity).
  assert (H2 : generate_image_request (Mock.world (inr Mock.no_candidates))
                 Run.text_request Mock.start =
               (inr Mock.no_candidates,
                (generate_image_request (Mock.world (inr Mock.no_candidates))
                   Run.text_request Mock.start).2))
    by (vm_compute; reflexivity).
  split.
  - eapply (proj1 (no_image_data_result _ _ _ _ _ H1)).
    + reflexivity.
    + reflexivity.
    + repeat constructor.
  - apply (proj2 (no_image_data_result _ _ _ _ _ H2)).
    left. reflexivity.
Defined.

(** C5 on the spec's example input. *)
Lemma decode_failure_short_circuits_witness :
  "!!!not-base64!!!" <> ""
  /\ Base64.b64decode "!!!not-base64!!!" = inl (Base64.invalid_length 6)
  /\ exists result st',
       generate_image_from_base64 (Mock.world (inr Mock.no_candidates))
         "x" (Some "!!!not-base64!!!") None Mock.start = (inr result, st')
       /\ result !! "success" = Some (VBool false)
       /\ result !! "error" =
          Some (VStr ("Failed to decode base64 input image: "
                      +:+ exc_str (Base64.invalid_length 6)))
       /\ self st' = self Mock.start
       /\ trace st' = trace Mock.start ++ [B64Decode "!!!not-base64!!!"].
Proof.
  split; [discriminate|]. split; [reflexivity|].
  apply (decode_failure_short_circuits (Mock.world (inr Mock.no_candidates))
           "x" "!!!not-base64!!!" None Mock.start (Base64.invalid_length 6)).
  - discriminate.
  - reflexivity.
Defined.

(** C7 on two responses.  A text part, two image parts and a second
    candidate: the first image part of the first candidate is returned.
    No image in the first candidate and one in the second: the no-image
    failure. *)
Lemma first_inline_image_wins_witness :
  (generate_image (Mock.world (inr Run.two_candidates))
     Run.text_request Mock.start).1 =
  inr {| success := true;
         generated_image_data := Some Mock.png;
         error_message := None;
         model_used := default_model |}
  /\ (generate_image (Mock.world (inr Run.image_in_second_only))
        Run.text_request Mock.start).1 =
     inr (failure "No image data found in model response").
Proof.
  assert (H1 : generate_image_request (Mock.world (inr Run.two_candidates))
                 Run.text_request Mock.start =
               (inr Run.two_candidates,
                (generate_image_request (Mock.world (inr Run.two_candidates))
                   Run.text_request Mock.start).2))
    by (vm_compute; reflexivity).
  assert (H2 : generate_image_request
                 (Mock.world (inr Run.image_in_second_only))
                 Run.text_request Mock.start =
               (inr Run.image_in_second_only,
                (generate_image_request
                   (Mock.world (inr Run.image_in_second_only))
                   Run.text_request Mock.start).2))
    by (vm_compute; reflexivity).
  split.
  - erewrite (proj1 (first_inline_image_wins _ _ _ _ _ _ _ H1 eq_refl)
                [Mock.text_part "here you go"]
                (Mock.image_part Mock.png "image/png")
                [Mock.image_part Run.other "image/png"] Mock.png).
    + reflexivity.
    + reflexivity.
    + repeat constructor.
    + reflexivity.
  - erewrite (proj1 (proj2 (first_inline_image_wins _ _ _ _ _ _ _ H2 eq_refl))
                [Mock.text_part "no image here"]).
    + reflexivity.
    + reflexivity.
    + repeat constructor.
Defined.

(** C9 in a world without the credential. *)
Lemma missing_credential_is_fatal_witness :
  __init__ Mock.bare_world None = inl api_key_missing
  /\ forall prompt b64 mime tr,
       generate_image_with_nano_banana Mock.bare_world prompt b64 mime tr =
       (inl api_key_missing, tr).
Proof.
  apply (proj1 (missing_credential_is_fatal Mock.bare_world None)).
  - reflexivity.
  - reflexivity.
Defined.

(** C6 on a run where the model returns a four-byte image. *)
Lemma generated_image_b64_roundtrip_witness :
  exists request st0 response st1 d encoded,
    prompt request = "x"
    /\ generate_image (Mock.world (inr Run.png_response)) request st0 =
       (inr response, st1)
    /\ success response = true
    /\ generated_image_data response = Some d
    /\ Run.png_result !! "generated_image_b64" = Some (VStr encoded)
    /\ Base64.b64decode encoded = inr d
    /\ Run.png_result !! "generated_image_size" =
       Some (VInt (Z.of_nat (length d))).
Proof.
  apply (generated_image_b64_roundtrip (Mock.world (inr Run.png_response))
           "x" None None Mock.start Run.png_result
           (generate_image_from_base64 (Mock.world (inr Run.png_response))
              "x" None None Mock.start).2).
  - vm_compute. reflexivity.
  - vm_compute. reflexivity.
Defined.

(** C8 on a fresh server: the first call builds the client, the second
    returns it, and a generation afterwards keeps it. *)
Lemma client_is_lazy_singleton_witness :
  exists c st',
    _get_client (Mock.world (inr Mock.no_candidates)) Mock.start = (inr c, st')
    /\ client_api_key c = "test-key"
    /\ _get_client (Mock.world (inr Mock.no_candidates)) st' = (inr c, st')
    /\ client (self (generate_image (Mock.world (inr Mock.no_candidates))
                       Run.text_request st').2) = Some c.
Proof.
  destruct (client_is_lazy_singleton (Mock.world (inr Mock.no_candidates)))
    as (Hfirst & Hnext & Hkeep).
  destruct (Hfirst Mock.start eq_refl eq_refl)
    as (c & st' & Hrun & Hkey & Hstored & _).
  exists c, st'. split; [exact Hrun|]. split; [exact Hkey|].
  split; [exact (Hnext st' c Hstored)|].
  exact (proj1 (proj2 (Hkeep st' c Hstored)) Run.text_request).
Defined.

(** * Further properties of the code *)

Section MoreFacts.

Context (E : Externals).

(** *** [__init__] and [_get_client] *)

(** X1. A non-empty [api_key] argument is the credential, whatever the
    environment holds; a missing or empty argument falls back to a
    non-empty [GOOGLE_AI_STUDIO_API_KEY].  The server starts with the fixed
    model name and no client. *)
Theorem init_credential_resolution :
  (forall a k,
      __init__ E (Some (String a k)) =
      inr {| api_key := String a k;
             model_name := "gemini-2.5-flash-image-preview";
             client := None |})
  /\ (forall key a v,
         truthy_str key = false ->
         environ E !! "GOOGLE_AI_STUDIO_API_KEY" = Some (String a v) ->
         __init__ E key =
         inr {| api_key := String a v;
                model_name := "gemini-2.5-flash-image-preview";
                client := None |}).
Proof.
  split.
  - intros a k. reflexivity.
  - intros key a v Hkey Henv. unfold __init__, py_or.
    rewrite Hkey, Henv. reflexivity.
Qed.

(** X2. A client constructor that raises leaves no client behind: the
    exception leaves [_get_client], [self.client] is still [None], and the
    next call runs the constructor again. *)
Theorem failed_client_is_not_cached st e :
  client (self st) = None ->
  Client_init E (trace st) (api_key (self st)) = Some e ->
  exists st1,
    _get_client E st = (inl e, st1)
    /\ client (self st1) = None
    /\ api_key (self st1) = api_key (self st)
    /\ trace st1 = trace st ++ [NewClient (api_key (self st))]
    /\ (Client_init E (trace st1) (api_key (self st)) = None ->
        exists c st2,
          _get_client E st1 = (inr c, st2)
          /\ client (self st2) = Some c
          /\ trace st2 =
             trace st ++ [NewClient (api_key (self st));
                          NewClient (api_key (self st));
                          Print "✅ Nano Banana MCP Server: Created AI Studio client"]).
Proof.
  intros Hnone Hbad. rewrite (get_client_raises E _ _ Hnone Hbad).
  eexists. split; [reflexivity|]. cbn [self trace].
  split; [exact Hnone|]. split; [reflexivity|]. split; [reflexivity|].
  intros Hok.
  set (st1 := {| self := self st;
                 trace := trace st ++ [NewClient (api_key (self st))] |}).
  rewrite (get_client_fresh E st1 Hnone Hok).
  do 2 eexists. split; [reflexivity|]. cbn.
  split; [reflexivity|]. now rewrite <- !app_assoc.
Qed.

(** *** The extraction loop *)

Lemma extract_image_cons p (ps : list Part) st :
  extract_image (p :: ps) st =
  match carried_image p with
  | Some d =>
      (inr (Some d),
       printed st ("✅ Nano Banana MCP: Extracted generated image ("
                   +:+ str_of_nat (length d) +:+ " bytes)"))
  | None => extract_image ps st
  end.
Proof.
  cbn [extract_image]. unfold carried_image.
  destruct (inline_data p) as [| |blob]; try reflexivity.
  destruct (data blob) as [| |[|b d]]; reflexivity.
Qed.

(** X3. The extraction loop returns the image of the first part that
    carries one, and nothing when no part does; it never raises, and it
    prints only when it finds an image. *)
Theorem extract_image_is_first_carried (ps : list Part) st :
  exists st',
    extract_image ps st = (inr (head (omap carried_image ps)), st')
    /\ (head (omap carried_image ps) = None -> st' = st).
Proof.
  induction ps as [|p ps IH].
  - exists st. split; [reflexivity | auto].
  - rewrite extract_image_cons. cbn [omap list_omap].
    destruct (carried_image p) as [d|]; [|exact IH].
    eexists. split; [reflexivity | discriminate].
Qed.

(** *** Responses with missing pieces *)

(** X4. A response whose [candidates] is [None], whose first candidate
    has no [content], or whose content has no [parts] list makes the
    inspection raise inside the [try] block; each becomes a failure with
    the interpreter's message. *)
Theorem malformed_response_fails request st response st1 :
  generate_image_request E request st = (inr response, st1) ->
  (candidates response = None ->
   (generate_image E request st).1 =
   inr (failure
          "Image generation failed: object of type 'NoneType' has no len()"))
  /\ (forall c cs,
         candidates response = Some (c :: cs) ->
         content c = None ->
         (generate_image E request st).1 =
         inr (failure
                "Image generation failed: 'NoneType' object has no attribute 'parts'"))
  /\ (forall c cs,
         candidates response = Some (c :: cs) ->
         content c = Some {| parts := None |} ->
         (generate_image E request st).1 =
         inr (failure
                "Image generation failed: 'NoneType' object is not iterable")).
Proof.
  intros Hreq. rewrite generate_image_run, Hreq.
  unfold generate_image_inspect, len_candidates, first_candidate_parts.
  split; [|split].
  - intros ->. reflexivity.
  - intros c cs -> ->. reflexivity.
  - intros c cs -> ->. reflexivity.
Qed.

(** *** The request phase of [generate_image] *)

Lemma request_run request st :
  generate_image_request E request st =
  match _get_client E (printed st (generating_line request)) with
  | (inl e, st1) => (inl e, st1)
  | (inr c, st1) =>
      match input_image_data request with
      | Some (b :: d) =>
          let mime :=
            default "image/png"
              (py_or (input_image_mime_type request) (Some "image/png")) in
          let st2 :=
            emitted (printed st1 (using_line (b :: d)))
              (PartFromBytes (b :: d) mime) in
          match Part_from_bytes E (trace st2) (b :: d) mime with
          | inl e => (inl e, st2)
          | inr part =>
              let contents :=
                [ContentText (prompt request); ContentPart part] in
              (generate_content E (trace st2) c (model_name (self st2))
                 contents,
               emitted st2 (GenerateContent c (model_name (self st2)) contents))
          end
      | _ =>
          let contents := [ContentText (prompt request)] in
          (generate_content E (trace st1) c (model_name (self st1)) contents,
           emitted st1 (GenerateContent c (model_name (self st1)) contents))
      end
  end.
Proof.
  unfold generate_image_request. rewrite bind_print_run.
  fold (generating_line request). rewrite bind_run.
  destruct (_get_client E (printed st (generating_line request)))
    as [[e|c] st1]; [reflexivity|].
  destruct (input_image_data request) as [[|b d]|]; try reflexivity.
  cbv zeta. rewrite bind_run, bind_print_run.
  fold (using_line (b :: d)). rewrite bind_run.
  unfold from_bytes. rewrite bind_run. cbn [emit ask].
  destruct (Part_from_bytes E _ (b :: d) _) as [e|part]; reflexivity.
Qed.

Lemma remote_calls_app tr evs :
  remote_calls (tr ++ evs) = remote_calls tr + remote_calls evs.
Proof.
  induction tr as [|ev tr IH]; [reflexivity|].
  destruct ev; cbn; rewrite IH; reflexivity.
Qed.

Lemma remote_calls_no_remote evs :
  Forall no_remote evs -> remote_calls evs = 0.
Proof.
  induction 1 as [|ev evs Hev _ IH]; [reflexivity|].
  destruct ev; cbn in *; auto. contradiction.
Qed.

Lemma steps_keep_remote_calls st st' :
  steps no_remote st st' -> remote_calls (trace st') = remote_calls (trace st).
Proof.
  intros (_ & _ & _ & evs & -> & Hevs).
  rewrite remote_calls_app, (remote_calls_no_remote _ Hevs). lia.
Qed.

Lemma client_event_no_remote ev : client_event ev -> no_remote ev.
Proof. destruct ev; cbn; auto. Qed.

Lemma get_client_steps st :
  steps client_event st (_get_client E st).2.
Proof. apply respects_get_client; intros; exact I. Qed.

Lemma get_client_keeps_calls st :
  remote_calls (trace (_get_client E st).2) = remote_calls (trace st).
Proof.
  apply steps_keep_remote_calls.
  apply respects_get_client; intros; exact I.
Qed.

Lemma printed_keeps_calls st line :
  remote_calls (trace (printed st line)) = remote_calls (trace st).
Proof. cbn. rewrite remote_calls_app. cbn. lia. Qed.

(** What the request phase does to the count of remote calls. *)
Lemma request_calls request st :
  match generate_image_request E request st with
  | (inl _, st1) =>
      remote_calls (trace st1) <= remote_calls (trace st) + 1
  | (inr _, st1) =>
      remote_calls (trace st1) = remote_calls (trace st) + 1
  end.
Proof.
  rewrite request_run.
  pose proof (get_client_keeps_calls (printed st (generating_line request)))
    as Hc.
  rewrite printed_keeps_calls in Hc.
  destruct (_get_client E (printed st (generating_line request)))
    as [[e|c] st1]; cbn [snd] in Hc; [lia|].
  assert (Hone : forall m cs r,
    match (r : result GenerateContentResponse,
           emitted st1 (GenerateContent c m cs)) with
    | (inl _, st2) => remote_calls (trace st2) <= remote_calls (trace st) + 1
    | (inr _, st2) => remote_calls (trace st2) = remote_calls (trace st) + 1
    end).
  { intros m cs [e|r]; cbn; rewrite remote_calls_app; cbn; lia. }
  destruct (input_image_data request) as [[|b d]|]; try apply Hone.
  cbv zeta.
  match goal with |- context [Part_from_bytes E ?tr ?x ?y] =>
    destruct (Part_from_bytes E tr x y) as [e|part] end.
  - cbn. rewrite !remote_calls_app. cbn. lia.
  - match goal with |- context [generate_content E ?a ?b ?c ?d] =>
      destruct (generate_content E a b c d) as [e|r] end;
      cbn; rewrite !remote_calls_app; cbn; lia.
Qed.

Lemma inspect_keeps_calls response st :
  remote_calls (trace (generate_image_inspect response st).2) =
  remote_calls (trace st).
Proof.
  apply steps_keep_remote_calls.
  apply respects_inspect. intros; exact I.
Qed.

Lemma except_keeps_calls e st :
  remote_calls (trace (generate_image_except e st).2) =
  remote_calls (trace st).
Proof. rewrite generate_image_except_run. apply printed_keeps_calls. Qed.

(** X5. There is no retry: one call of [generate_image] makes at most one
    remote call, whatever fails, and a successful response has cost exactly
    one. *)
Theorem at_most_one_remote_call request st :
  remote_calls (trace (generate_image E request st).2)
  <= remote_calls (trace st) + 1
  /\ (forall r,
         (generate_image E request st).1 = inr r ->
         success r = true ->
         remote_calls (trace (generate_image E request st).2) =
         remote_calls (trace st) + 1).
Proof.
  rewrite generate_image_run.
  pose proof (request_calls request st) as Hreq.
  destruct (generate_image_request E request st) as [[e|response] st1].
  - pose proof (except_keeps_calls e st1) as He.
    rewrite generate_image_except_run in *. cbn [fst snd] in *.
    split; [lia|]. intros r [= <-]. discriminate.
  - pose proof (inspect_keeps_calls response st1) as Hi.
    destruct (generate_image_inspect response st1) as [[e|r] st2];
      cbn [snd] in Hi.
    + pose proof (except_keeps_calls e st2) as He.
      rewrite generate_image_except_run in *. cbn [fst snd] in *.
      split; [lia|]. intros r [= <-]. discriminate.
    + cbn [fst snd]. split; [lia|]. intros; lia.
Qed.

(** X6. What reaches the model.  When the remote call answers, the trace
    has grown by the first log line, the events of client acquisition, and
    then: for a request without image bytes, one call with the server's
    model name and the prompt alone; for a request with image bytes, the
    log line, one [Part.from_bytes] on those bytes with the given media
    type (or "image/png" when it is missing or empty), and one call with
    the prompt followed by that part.  The client used is the one the
    server now stores, and the answer is the service's answer to that
    call. *)
Theorem remote_request_shape request st response st1 :
  generate_image_request E request st = (inr response, st1) ->
  exists evs c,
    Forall client_event evs
    /\ client (self st1) = Some c
    /\ let before := trace st ++ [Print (generating_line request)] ++ evs in
       match input_image_data request with
       | Some (b :: d) =>
           exists mime part,
             sent_mime (input_image_mime_type request) mime
             /\ Part_from_bytes E
                  (before ++ [Print (using_line (b :: d));
                              PartFromBytes (b :: d) mime])
                  (b :: d) mime = inr part
             /\ generate_content E
                  (before ++ [Print (using_line (b :: d));
                              PartFromBytes (b :: d) mime])
                  c (model_name (self st))
                  [ContentText (prompt request); ContentPart part]
                = inr response
             /\ trace st1 =
                before ++ [Print (using_line (b :: d));
                           PartFromBytes (b :: d) mime;
                           GenerateContent c (model_name (self st))
                             [ContentText (prompt request); ContentPart part]]
       | _ =>
           generate_content E before c (model_name (self st))
             [ContentText (prompt request)] = inr response
           /\ trace st1 =
              before ++ [GenerateContent c (model_name (self st))
                           [ContentText (prompt request)]]
       end.
Proof.
  rewrite request_run.
  pose proof (get_client_steps (printed st (generating_line request)))
    as (_ & Hmodel & _ & evs & Htrace & Hevs).
  pose proof (get_client_stored E (printed st (generating_line request)))
    as Hstored.
  destruct (_get_client E (printed st (generating_line request)))
    as [[e|c] st1'] eqn:Hget; [discriminate|].
  cbn [snd printed self trace] in Hmodel, Htrace.
  specialize (Hstored c st1' eq_refl).
  assert (Hbefore :
    trace st1' = trace st ++ [Print (generating_line request)] ++ evs).
  { rewrite Htrace. now rewrite <- app_assoc. }
  destruct (input_image_data request) as [[|b d]|].
  - cbv zeta. intros [= Hgen <-]. exists evs, c.
    split; [exact Hevs|]. split; [exact Hstored|].
    cbv zeta. cbn [emitted self trace]. rewrite Hbefore, Hmodel in *.
    split; [exact Hgen | reflexivity].
  - cbv zeta.
    set (mime := default "image/png"
                   (py_or (input_image_mime_type request) (Some "image/png"))).
    assert (Hmime : sent_mime (input_image_mime_type request) mime).
    { unfold mime, sent_mime, py_or.
      destruct (input_image_mime_type request) as [[|a m]|]; reflexivity. }
    cbn [emitted printed self trace].
    rewrite <- (app_assoc (trace st1')). cbn [app].
    destruct (Part_from_bytes E _ (b :: d) mime) as [e|part] eqn:Hpart;
      [discriminate|].
    intros [= Hgen <-]. exists evs, c.
    split; [exact Hevs|]. split; [exact Hstored|].
    cbv zeta. exists mime, part. cbn [self trace].
    rewrite Hbefore, Hmodel in *.
    split; [exact Hmime|]. split; [exact Hpart|].
    split; [exact Hgen|].
    cbn [emitted printed self trace]. rewrite Hbefore.
    rewrite <- !app_assoc. reflexivity.
  - cbv zeta. intros [= Hgen <-]. exists evs, c.
    split; [exact Hevs|]. split; [exact Hstored|].
    cbv zeta. cbn [emitted self trace]. rewrite Hbefore, Hmodel in *.
    split; [exact Hgen | reflexivity].
Qed.

(** *** Failures of the libraries *)

(** X7. When the server has no client and the client constructor raises,
    [generate_image] returns the failure with the constructor's message;
    the remote call is not made and the server still has no client, so the
    next request will try to build one again. *)
Theorem client_failure_is_reported request st e :
  client (self st) = None ->
  Client_init E (trace st ++ [Print (generating_line request)])
    (api_key (self st)) = Some e ->
  generate_image E request st =
  (inr (failure ("Image generation failed: " +:+ exc_str e)),
   {| self := self st;
      trace := trace st ++ [Print (generating_line request);
                            NewClient (api_key (self st));
                            Print (error_line e)] |}).
Proof.
  intros Hnone Hbad. rewrite generate_image_run, request_run.
  rewrite (get_client_raises E (printed st (generating_line request)) e
             Hnone Hbad).
  rewrite generate_image_except_run. unfold printed, error_line.
  cbn [self trace]. now rewrite <- !app_assoc.
Qed.

(** X8. When the remote call raises, a server that holds a client returns
    the failure with the service's message after that single attempt: for
    a request without image bytes the trace gains the first log line, the
    one call and the error line, and the server object is unchanged. *)
Theorem remote_failure_is_reported request st c e :
  client (self st) = Some c ->
  truthy_bytes (input_image_data request) = false ->
  generate_content E (trace st ++ [Print (generating_line request)]) c
    (model_name (self st)) [ContentText (prompt request)] = inl e ->
  generate_image E request st =
  (inr (failure ("Image generation failed: " +:+ exc_str e)),
   {| self := self st;
      trace := trace st ++ [Print (generating_line request);
                            GenerateContent c (model_name (self st))
                              [ContentText (prompt request)];
                            Print (error_line e)] |}).
Proof.
  intros Hc Hempty Hgen. rewrite generate_image_run, request_run.
  rewrite (get_client_cached E (printed st (generating_line request)) c Hc).
  assert (generate_content E (trace (printed st (generating_line request))) c
            (model_name (self (printed st (generating_line request))))
            [ContentText (prompt request)] = inl e) as Hgen' by exact Hgen.
  destruct (input_image_data request) as [[|b d]|]; try discriminate;
    cbv zeta; rewrite Hgen'; rewrite generate_image_except_run;
    unfold printed, emitted, error_line; cbn [self trace];
    now rewrite <- !app_assoc.
Qed.

(** X9. The model a response names: a success names the server's
    [model_name]; every failure names the data class default,
    "gemini-2.5-flash-image-preview". *)
Theorem model_used_of_response request st r st' :
  generate_image E request st = (inr r, st') ->
  model_used r =
  if success r then model_name (self st)
  else "gemini-2.5-flash-image-preview".
Proof.
  rewrite generate_image_run.
  pose proof (respects_request E (fun _ => True) (fun _ => I) (fun _ => I)
                request (fun _ _ _ _ => I) (fun _ _ _ => I) st)
    as (_ & Hm1 & _).
  destruct (generate_image_request E request st) as [[e|response] st1].
  - rewrite generate_image_except_run. intros [= <- <-]. reflexivity.
  - cbn [snd] in Hm1.
    pose proof (respects_inspect (fun _ => True) (fun _ => I) response st1)
      as (_ & Hm2 & _).
    destruct (generate_image_inspect response st1) as [[e|r'] st2] eqn:Hi.
    + rewrite generate_image_except_run. intros [= <- <-]. reflexivity.
    + intros [= <- <-]. cbn [snd] in Hm2.
      apply inspect_shapes in Hi as [(b & d & ->) | ->]; cbn.
      * congruence.
      * reflexivity.
Qed.

(** *** The dictionaries of [generate_image_from_base64] *)

(** The two dictionaries the tool interface builds from a response. *)
Lemma from_decoded_dictionary prompt input mime st :
  exists result st',
    generate_image_from_decoded E prompt input mime st = (inr result, st')
    /\ ((result !! "success" = Some (VBool true)
         /\ (exists encoded, result !! "generated_image_b64" = Some (VStr encoded))
         /\ (exists n, result !! "generated_image_size" = Some (VInt n)
                       /\ (0 < n)%Z)
         /\ result !! "error" = None)
        \/ (result !! "success" = Some (VBool false)
            /\ (exists msg, result !! "error" = Some (VStr msg) /\ msg <> "")
            /\ result !! "generated_image_b64" = None
            /\ result !! "generated_image_size" = None)).
Proof.
  rewrite from_decoded_run.
  set (request := {| prompt := prompt; input_image_data := input |}).
  destruct (generate_image E request st) as [[e|response] st1] eqn:Hgen.
  { destruct (generate_image_returns E request st) as (r & st2 & Hr).
    congruence. }
  assert (Hshape :
    (exists b d name,
        response = {| success := true;
                      generated_image_data := Some (b :: d);
                      error_message := None;
                      model_used := name |})
    \/ exists msg, response = failure msg /\ msg <> "").
  { revert Hgen. rewrite generate_image_run.
    destruct (generate_image_request E request st) as [[e|resp] st2].
    - rewrite generate_image_except_run. intros [= <- <-].
      right. eexists. split; [reflexivity | discriminate].
    - destruct (generate_image_inspect resp st2) as [[e|r'] st3] eqn:Hi.
      + rewrite generate_image_except_run. intros [= <- <-].
        right. eexists. split; [reflexivity | discriminate].
      + intros [= <- <-].
        apply inspect_shapes in Hi as [(b & d & ->) | ->]; [eauto 6|].
        right. eexists. split; [reflexivity | discriminate]. }
  cbv zeta.
  destruct Hshape as [(b & d & name & ->) | (msg & -> & Hmsg)];
    cbn [success generated_image_data error_message model_used failure];
    do 2 eexists; (split; [reflexivity|]).
  - left. split; [|split; [|split]].
    + do 3 (rewrite lookup_insert_ne by discriminate). apply lookup_insert_eq.
    + eexists. rewrite lookup_insert_ne by discriminate.
      apply lookup_insert_eq.
    + eexists. split; [apply lookup_insert_eq|]. cbn [length]. lia.
    + do 4 (rewrite lookup_insert_ne by discriminate). apply lookup_empty.
  - right. split; [|split; [|split]].
    + do 2 (rewrite lookup_insert_ne by discriminate). apply lookup_insert_eq.
    + exists msg. split; [apply lookup_insert_eq | exact Hmsg].
    + do 3 (rewrite lookup_insert_ne by discriminate). apply lookup_empty.
    + do 3 (rewrite lookup_insert_ne by discriminate). apply lookup_empty.
Qed.

(** X10. [generate_image_from_base64] never raises, and its dictionary
    has one of two shapes: [success] true with the encoded image and a
    positive size and no [error]; or [success] false with a non-empty
    string under [error] and neither image key. *)
Theorem from_base64_dictionary prompt b64 mime st :
  exists result st',
    generate_image_from_base64 E prompt b64 mime st = (inr result, st')
    /\ ((result !! "success" = Some (VBool true)
         /\ (exists encoded, result !! "generated_image_b64" = Some (VStr encoded))
         /\ (exists n, result !! "generated_image_size" = Some (VInt n)
                       /\ (0 < n)%Z)
         /\ result !! "error" = None)
        \/ (result !! "success" = Some (VBool false)
            /\ (exists msg, result !! "error" = Some (VStr msg) /\ msg <> "")
            /\ result !! "generated_image_b64" = None
            /\ result !! "generated_image_size" = None)).
Proof.
  destruct (truthy_str b64) eqn:Hb.
  - destruct b64 as [[|a s]|]; try discriminate.
    destruct (Base64.b64decode (String a s)) as [e|d] eqn:Hd.
    + rewrite (from_base64_undecodable E _ _ _ _ _ (String_nonempty a s) Hd).
      do 2 eexists. split; [reflexivity|]. right.
      split; [|split; [|split]].
      * rewrite lookup_insert_ne by discriminate. apply lookup_insert_eq.
      * eexists. split; [apply lookup_insert_eq | discriminate].
      * do 2 (rewrite lookup_insert_ne by discriminate). apply lookup_empty.
      * do 2 (rewrite lookup_insert_ne by discriminate). apply lookup_empty.
    + rewrite (from_base64_decoded E _ _ _ _ _ (String_nonempty a s) Hd).
      apply from_decoded_dictionary.
  - rewrite (from_base64_absent E _ _ _ _ Hb). apply from_decoded_dictionary.
Qed.

(** Empty image bytes and no image bytes are the same request. *)
Lemma generate_image_empty_bytes prompt mime st :
  generate_image E {| prompt := prompt;
                      input_image_data := Some [];
                      input_image_mime_type := mime |} st =
  generate_image E {| prompt := prompt;
                      input_image_data := None;
                      input_image_mime_type := mime |} st.
Proof. rewrite !generate_image_run, !request_run. reflexivity. Qed.

(** X11. A base64 input that decodes to zero bytes (padding or separators
    only) is decoded and then dropped: the call continues exactly as the
    call without an image. *)
Theorem empty_decoding_is_text_only prompt s mime st :
  s <> "" ->
  Base64.b64decode s = inr [] ->
  generate_image_from_base64 E prompt (Some s) mime st =
  generate_image_from_base64 E prompt None mime (emitted st (B64Decode s)).
Proof.
  intros Hs Hd. rewrite (from_base64_decoded E _ _ _ _ _ Hs Hd).
  change (generate_image_from_base64 E prompt None mime
            (emitted st (B64Decode s)))
    with (generate_image_from_decoded E prompt None mime
            (emitted st (B64Decode s))).
  rewrite !from_decoded_run, generate_image_empty_bytes. reflexivity.
Qed.

(** X12. Standard base64 of any non-empty byte string is accepted as
    input: it never takes the decode-failure exit, and the request is built
    on exactly those bytes. *)
Theorem encoded_input_reaches_request prompt b d mime st :
  generate_image_from_base64 E prompt (Some (Base64.b64encode (b :: d)))
    mime st =
  generate_image_from_decoded E prompt (Some (b :: d)) mime
    (emitted st (B64Decode (Base64.b64encode (b :: d)))).
Proof.
  apply from_base64_decoded.
  - unfold Base64.b64encode.
    destruct d as [|c [|c' d]]; discriminate.
  - apply Base64Facts.b64decode_b64encode.
Qed.

(** X13. The methods keep the server's configuration and the log: after
    [generate_image] or [generate_image_from_base64] the credential and the
    model name are what they were, and the old trace is a prefix of the
    new one. *)
Theorem methods_keep_configuration st :
  (forall request,
      api_key (self (generate_image E request st).2) = api_key (self st)
      /\ model_name (self (generate_image E request st).2) =
         model_name (self st)
      /\ exists evs,
           trace (generate_image E request st).2 = trace st ++ evs)
  /\ (forall prompt b64 mime,
         api_key (self (generate_image_from_base64 E prompt b64 mime st).2) =
         api_key (self st)
         /\ model_name
              (self (generate_image_from_base64 E prompt b64 mime st).2) =
            model_name (self st)
         /\ exists evs,
              trace (generate_image_from_base64 E prompt b64 mime st).2 =
              trace st ++ evs).
Proof.
  split.
  - intros request.
    destruct (respects_generate_image E (fun _ => True) (fun _ => I)
                (fun _ => I) request (fun _ _ _ _ => I) (fun _ _ _ => I) st)
      as (Ha & Hm & _ & evs & Ht & _).
    eauto.
  - intros prompt b64 mime.
    destruct (respects_from_base64 E prompt b64 mime st)
      as (Ha & Hm & _ & evs & Ht & _).
    eauto.
Qed.

End MoreFacts.

(** *** The tool function and the self-test *)

Section ToolFacts.

Context (E : Externals).

Lemma tool_run prompt b64 mime tr a v :
  environ E !! "GOOGLE_AI_STUDIO_API_KEY" = Some (String a v) ->
  generate_image_with_nano_banana E prompt b64 mime tr =
  let '(r, st) :=
    generate_image_from_base64 E prompt b64 mime
      {| self := {| api_key := String a v;
                    model_name := default_model;
                    client := None |};
         trace := tr |} in
  (r, trace st).
Proof.
  intros Henv. unfold generate_image_with_nano_banana, __init__, py_or.
  cbn [truthy_str]. rewrite Henv. reflexivity.
Qed.

Lemma from_base64_returns prompt b64 mime st :
  exists result st',
    generate_image_from_base64 E prompt b64 mime st = (inr result, st').
Proof.
  destruct (truthy_str b64) eqn:Hb.
  - destruct b64 as [[|a s]|]; try discriminate.
    destruct (Base64.b64decode (String a s)) as [e|d] eqn:Hd.
    + rewrite (from_base64_undecodable E _ _ _ _ _ (String_nonempty a s) Hd).
      eauto.
    + rewrite (from_base64_decoded E _ _ _ _ _ (String_nonempty a s) Hd).
      destruct (from_decoded_dictionary E prompt (Some d) mime
                  (emitted st (B64Decode (String a s))))
        as (result & st' & -> & _).
      eauto.
  - rewrite (from_base64_absent E _ _ _ _ Hb).
    destruct (from_decoded_dictionary E prompt None mime st)
      as (result & st' & -> & _).
    eauto.
Qed.

(** X14. The tool function raises exactly when the environment holds no
    non-empty credential; with one it always returns a dictionary. *)
Theorem tool_raises_iff_no_credential prompt b64 mime tr :
  (exists e, (generate_image_with_nano_banana E prompt b64 mime tr).1 = inl e)
  <-> truthy_str (environ E !! "GOOGLE_AI_STUDIO_API_KEY") = false.
Proof.
  destruct (environ E !! "GOOGLE_AI_STUDIO_API_KEY") as [[|a v]|] eqn:Henv.
  - split; [reflexivity|]. intros _.
    unfold generate_image_with_nano_banana, __init__, py_or.
    cbn [truthy_str]. rewrite Henv. eauto.
  - rewrite (tool_run _ _ _ _ _ _ Henv).
    destruct (from_base64_returns prompt b64 mime
                {| self := {| api_key := String a v;
                              model_name := default_model;
                              client := None |};
                   trace := tr |}) as (result & st' & ->).
    cbn. split; [intros [e He]|]; discriminate.
  - split; [reflexivity|]. intros _.
    unfold generate_image_with_nano_banana, __init__, py_or.
    cbn [truthy_str]. rewrite Henv. eauto.
Qed.

(** After the request phase the trace only grows. *)
Lemma finish_grows (o : result GenerateContentResponse) s base pre mid :
  trace s = base ++ pre ++ mid ->
  exists evs,
    trace (match o with
           | inl e => generate_image_except e s
           | inr response =>
               match generate_image_inspect response s with
               | (inl e, s2) => generate_image_except e s2
               | (inr r, s2) => (inr r, s2)
               end
           end).2 = base ++ pre ++ evs.
Proof.
  intros Hs. destruct o as [e|response].
  - rewrite generate_image_except_run. cbn. rewrite Hs.
    eexists. rewrite <- !app_assoc. reflexivity.
  - destruct (respects_inspect (fun _ => True) (fun _ => I) response s)
      as (_ & _ & _ & evs & Ht & _).
    destruct (generate_image_inspect response s) as [[e|r] s2];
      cbn [snd] in Ht.
    + rewrite generate_image_except_run. cbn. rewrite Ht, Hs.
      eexists. rewrite <- !app_assoc. reflexivity.
    + cbn. rewrite Ht, Hs. eexists. rewrite <- !app_assoc. reflexivity.
Qed.

(** A server without a client runs the constructor on every request. *)
Lemma generate_image_builds_client request st :
  client (self st) = None ->
  exists evs,
    trace (generate_image E request st).2 =
    trace st ++ [Print (generating_line request);
                 NewClient (api_key (self st))] ++ evs.
Proof.
  intros Hnone. rewrite generate_image_run, request_run.
  destruct (Client_init E (trace (printed st (generating_line request)))
              (api_key (self st))) as [e|] eqn:Hinit.
  - rewrite (get_client_raises E (printed st (generating_line request)) e
               Hnone Hinit).
    rewrite generate_image_except_run. cbn. eexists.
    rewrite <- !app_assoc. reflexivity.
  - rewrite (get_client_fresh E (printed st (generating_line request))
               Hnone Hinit).
    cbv zeta.
    match goal with
    | |- context [match input_image_data request with _ => _ end] =>
        destruct (input_image_data request) as [[|b d]|]
    end.
    all: try match goal with |- context [Part_from_bytes E ?tr ?x ?y] =>
           destruct (Part_from_bytes E tr x y) as [e|part]
         end.
    2: { rewrite generate_image_except_run. cbn. eexists.
         rewrite <- !app_assoc. reflexivity. }
    all: eapply finish_grows; cbn; rewrite <- !app_assoc; reflexivity.
Qed.

Lemma from_decoded_builds_client prompt input mime st :
  client (self st) = None ->
  exists evs,
    trace (generate_image_from_decoded E prompt input mime st).2 =
    trace st ++ evs
    /\ In (NewClient (api_key (self st))) evs.
Proof.
  intros Hnone. rewrite from_decoded_run.
  set (request := {| prompt := prompt; input_image_data := input |}).
  destruct (generate_image_builds_client request st Hnone) as (evs & Hevs).
  destruct (generate_image E request st) as [[e|response] st1];
    cbn [snd] in Hevs.
  - cbn [snd]. rewrite Hevs. eexists. split; [reflexivity|].
    right. left. reflexivity.
  - cbv zeta.
    destruct (success response);
      [destruct (generated_image_data response) as [[|b d]|]|];
      cbn [snd emitted trace]; rewrite Hevs;
      try (eexists; split; [reflexivity|]; right; left; reflexivity).
    rewrite <- app_assoc. eexists. split; [reflexivity|].
    apply in_or_app. left. right. left. reflexivity.
Qed.

(** X15. The tool function builds its server anew on every call, so the
    client is never reused between calls: unless the input image fails to
    decode, each call runs the client constructor with the credential of
    the environment. *)
Theorem tool_builds_a_client_each_call prompt b64 mime tr a v :
  environ E !! "GOOGLE_AI_STUDIO_API_KEY" = Some (String a v) ->
  (forall s, b64 = Some s -> s <> "" ->
             exists d, Base64.b64decode s = inr d) ->
  exists evs,
    (generate_image_with_nano_banana E prompt b64 mime tr).2 = tr ++ evs
    /\ In (NewClient (String a v)) evs.
Proof.
  intros Henv Hdec. rewrite (tool_run _ _ _ _ _ _ Henv).
  set (st := {| self := {| api_key := String a v;
                           model_name := default_model;
                           client := None |};
                trace := tr |}).
  destruct (truthy_str b64) eqn:Hb.
  - destruct b64 as [[|c s]|]; try discriminate.
    destruct (Hdec (String c s) eq_refl (String_nonempty c s)) as (d & Hd).
    rewrite (from_base64_decoded E _ _ _ _ _ (String_nonempty c s) Hd).
    destruct (from_decoded_builds_client prompt (Some d) mime
                (emitted st (B64Decode (String c s))) eq_refl)
      as (evs & Hevs & Hin).
    destruct (generate_image_from_decoded E prompt (Some d) mime _)
      as [r st']. cbn [snd] in *. rewrite Hevs. cbn [emitted trace st].
    rewrite <- app_assoc. eexists. split; [reflexivity|].
    right. exact Hin.
  - rewrite (from_base64_absent E _ _ _ _ Hb).
    destruct (from_decoded_builds_client prompt None mime st eq_refl)
      as (evs & Hevs & Hin).
    destruct (generate_image_from_decoded E prompt None mime st) as [r st'].
    cbn [snd] in *. rewrite Hevs. eauto.
Qed.

(** X16. With a credential in the environment the self-test never raises:
    every key it reads from the dictionary is there.  It returns the
    dictionary of the tool function and its last line is the image size
    or the error.  Without a credential it raises the construction error
    right after its banner. *)
Theorem self_test_reads_present_keys tr :
  (truthy_str (environ E !! "GOOGLE_AI_STUDIO_API_KEY") = true ->
   exists result tr1 shown line,
     generate_image_with_nano_banana E test_prompt None None
       (tr ++ [Print "🧪 Testing Nano Banana MCP Server..."]) =
     (inr result, tr1)
     /\ test_nano_banana_server E tr =
        (inr result,
         tr1 ++ [Print ("Text-to-image result: " +:+ shown); Print line])
     /\ ((result !! "success" = Some (VBool true)
          /\ shown = "True"
          /\ exists n, result !! "generated_image_size" = Some (VInt n)
                       /\ line = "Generated image size: "
                                 +:+ str_of_val (VInt n) +:+ " bytes")
         \/ (result !! "success" = Some (VBool false)
             /\ shown = "False"
             /\ exists msg, result !! "error" = Some (VStr msg)
                            /\ line = "Error: " +:+ msg)))
  /\ (truthy_str (environ E !! "GOOGLE_AI_STUDIO_API_KEY") = false ->
      test_nano_banana_server E tr =
      (inl api_key_missing,
       tr ++ [Print "🧪 Testing Nano Banana MCP Server..."])).
Proof.
  split.
  - intros Henv.
    destruct (environ E !! "GOOGLE_AI_STUDIO_API_KEY") as [[|a v]|] eqn:Hk;
      try discriminate.
    unfold test_nano_banana_server. cbv zeta.
    rewrite (tool_run _ _ _ _ _ _ Hk).
    change (generate_image_from_base64 E test_prompt None None)
      with (generate_image_from_decoded E test_prompt None None).
    match goal with |- context [generate_image_from_decoded E _ _ _ ?s] =>
      destruct (from_decoded_dictionary E test_prompt None None s)
        as (result & st' & -> & Hshape)
    end.
    exists result, (trace st').
    destruct Hshape as [(Hs & _ & (n & Hn & _) & _)
                       | (Hs & (msg & Hmsg & _) & _)].
    + do 2 eexists. split; [reflexivity|]. unfold getitem.
      rewrite Hs, Hn. cbn [truthy_val str_of_val].
      split; [rewrite <- app_assoc; reflexivity|].
      left. eauto.
    + do 2 eexists. split; [reflexivity|]. unfold getitem.
      rewrite Hs, Hmsg. cbn [truthy_val str_of_val].
      split; [rewrite <- app_assoc; reflexivity|].
      right. eauto.
  - intros Henv. unfold test_nano_banana_server. cbv zeta.
    unfold generate_image_with_nano_banana, __init__, py_or.
    cbn [truthy_str].
    destruct (environ E !! "GOOGLE_AI_STUDIO_API_KEY") as [[|a v]|];
      try discriminate; reflexivity.
Qed.

End ToolFacts.

(** * The further properties on concrete runs *)

(** X1 with the credential in the environment only. *)
Lemma init_credential_resolution_witness :
  __init__ (Mock.world (inr Mock.no_candidates)) (Some "") =
  inr {| api_key := "test-key";
         model_name := "gemini-2.5-flash-image-preview";
         client := None |}.
Proof.
  apply (proj2 (init_credential_resolution (Mock.world (inr Mock.no_candidates)))
           (Some "") "t"%char "est-key").
  - reflexivity.
  - vm_compute. reflexivity.
Defined.

(** X2 with a constructor that fails once. *)
Lemma failed_client_is_not_cached_witness :
  exists st1,
    _get_client Faulty.flaky_client Mock.start = (inl Faulty.bad_key, st1)
    /\ client (self st1) = None
    /\ exists c st2,
         _get_client Faulty.flaky_client st1 = (inr c, st2)
         /\ client (self st2) = Some c.
Proof.
  destruct (failed_client_is_not_cached Faulty.flaky_client Mock.start
              Faulty.bad_key eq_refl eq_refl)
    as (st1 & Hrun & Hnone & _ & Htrace & Hnext).
  exists st1. split; [exact Hrun|]. split; [exact Hnone|].
  pose proof (f_equal
                (fun tr => Client_init Faulty.flaky_client tr
                             (api_key (self Mock.start))) Htrace) as Hok.
  destruct (Hnext Hok) as (c & st2 & Hrun2 & Hstored & _).
  exists c, st2. split; assumption.
Defined.

(** X4 on the three responses with a missing piece. *)
Lemma malformed_response_fails_witness :
  (generate_image (Mock.world (inr Faulty.none_candidates))
     Run.text_request Mock.start).1 =
  inr (failure
         "Image generation failed: object of type 'NoneType' has no len()")
  /\ (generate_image (Mock.world (inr Faulty.none_content))
        Run.text_request Mock.start).1 =
     inr (failure
            "Image generation failed: 'NoneType' object has no attribute 'parts'")
  /\ (generate_image (Mock.world (inr Faulty.none_parts))
        Run.text_request Mock.start).1 =
     inr (failure
            "Image generation failed: 'NoneType' object is not iterable").
Proof.
  assert (H1 : generate_image_request (Mock.world (inr Faulty.none_candidates))
                 Run.text_request Mock.start =
               (inr Faulty.none_candidates,
                (generate_image_request
                   (Mock.world (inr Faulty.none_candidates))
                   Run.text_request Mock.start).2))
    by (vm_compute; reflexivity).
  assert (H2 : generate_image_request (Mock.world (inr Faulty.none_content))
                 Run.text_request Mock.start =
               (inr Faulty.none_content,
                (generate_image_request
                   (Mock.world (inr Faulty.none_content))
                   Run.text_request Mock.start).2))
    by (vm_compute; reflexivity).
  assert (H3 : generate_image_request (Mock.world (inr Faulty.none_parts))
                 Run.text_request Mock.start =
               (inr Faulty.none_parts,
                (generate_image_request
                   (Mock.world (inr Faulty.none_parts))
                   Run.text_request Mock.start).2))
    by (vm_compute; reflexivity).
  split; [|split].
  - apply (proj1 (malformed_response_fails _ _ _ _ _ H1)). reflexivity.
  - eapply (proj1 (proj2 (malformed_response_fails _ _ _ _ _ H2)));
      reflexivity.
  - eapply (proj2 (proj2 (malformed_response_fails _ _ _ _ _ H3)));
      reflexivity.
Defined.

(** X6 on a request with image bytes and no media type. *)
Lemma remote_request_shape_witness :
  exists evs c mime part,
    Forall client_event evs
    /\ sent_mime None mime
    /\ trace (generate_image_request (Mock.world (inr Run.png_response))
                Faulty.image_request Mock.start).2 =
       (trace Mock.start ++ [Print (generating_line Faulty.image_request)] ++ evs)
       ++ [Print (using_line Mock.png);
           PartFromBytes Mock.png mime;
           GenerateContent c default_model
             [ContentText "make it festive"; ContentPart part]].
Proof.
  assert (H : generate_image_request (Mock.world (inr Run.png_response))
                Faulty.image_request Mock.start =
              (inr Run.png_response,
               (generate_image_request (Mock.world (inr Run.png_response))
                  Faulty.image_request Mock.start).2))
    by (vm_compute; reflexivity).
  destruct (remote_request_shape _ _ _ _ _ H)
    as (evs & c & Hevs & _ & mime & part & Hmime & _ & _ & Htrace).
  exists evs, c, mime, part. repeat split; assumption.
Defined.

(** X7 with a constructor that always raises. *)
Lemma client_failure_is_reported_witness :
  generate_image Faulty.no_client Run.text_request Mock.start =
  (inr (failure "Image generation failed: Invalid API key"),
   {| self := Mock.server;
      trace := [Print (generating_line Run.text_request);
                NewClient "test-key";
                Print (error_line Faulty.bad_key)] |}).
Proof.
  apply (client_failure_is_reported Faulty.no_client Run.text_request
           Mock.start Faulty.bad_key).
  - reflexivity.
  - reflexivity.
Defined.

(** X8 with a service that answers with a quota error. *)
Lemma remote_failure_is_reported_witness :
  generate_image (Mock.world (inl Faulty.quota)) Run.text_request Faulty.ready =
  (inr (failure "Image generation failed: 429 RESOURCE_EXHAUSTED"),
   {| self := self Faulty.ready;
      trace := [Print (generating_line Run.text_request);
                GenerateContent Faulty.ready_client default_model
                  [ContentText "A ceramic bowl with patterns"];
                Print (error_line Faulty.quota)] |}).
Proof.
  apply (remote_failure_is_reported (Mock.world (inl Faulty.quota))
           Run.text_request Faulty.ready Faulty.ready_client Faulty.quota).
  - reflexivity.
  - reflexivity.
  - reflexivity.
Defined.

(** X9 on a successful run. *)
Lemma model_used_of_response_witness :
  model_used
    {| success := true;
       generated_image_data := Some Mock.png;
       error_message := None;
       model_used := default_model |} =
  model_name (self Mock.start).
Proof.
  apply (model_used_of_response (Mock.world (inr Run.png_response))
           Run.text_request Mock.start
           {| success := true;
              generated_image_data := Some Mock.png;
              error_message := None;
              model_used := default_model |}
           (generate_image (Mock.world (inr Run.png_response))
              Run.text_request Mock.start).2).
  vm_compute. reflexivity.
Defined.

(** X11 on an input of padding only. *)
Lemma empty_decoding_is_text_only_witness :
  generate_image_from_base64 (Mock.world (inr Run.png_response))
    "x" (Some "====") None Mock.start =
  generate_image_from_base64 (Mock.world (inr Run.png_response))
    "x" None None (emitted Mock.start (B64Decode "====")).
Proof.
  apply (empty_decoding_is_text_only (Mock.world (inr Run.png_response))
           "x" "====" None Mock.start).
  - discriminate.
  - reflexivity.
Defined.

(** X15 on a call with a valid input image. *)
Lemma tool_builds_a_client_each_call_witness :
  exists evs,
    (generate_image_with_nano_banana (Mock.world (inr Run.png_response))
       "x" (Some "iVBORw==") None []).2 = [] ++ evs
    /\ In (NewClient "test-key") evs.
Proof.
  apply (tool_builds_a_client_each_call (Mock.world (inr Run.png_response))
           "x" (Some "iVBORw==") None [] "t"%char "est-key").
  - vm_compute. reflexivity.
  - intros s [= <-] _. exists Mock.png. reflexivity.
Defined.

(** *** Lenient decoding of the input image *)

Lemma a2b_loop_skips s1 c s2 :
  Ascii.eqb c Base64.BASE64_PAD = false ->
  (64 <=? Base64.table_a2b_base64 c)%N = true ->
  forall q l p out,
    Base64.a2b_loop (s1 +:+ String c s2) q l p out =
    Base64.a2b_loop (s1 +:+ s2) q l p out.
Proof.
  intros Hpad Hout. induction s1 as [|ch s1 IH]; intros q l p out.
  - change (Base64.a2b_loop (String c s2) q l p out =
            Base64.a2b_loop s2 q l p out).
    cbn [Base64.a2b_loop]. rewrite Hpad. cbv zeta.
    rewrite Hout. reflexivity.
  - change (Base64.a2b_loop (String ch (s1 +:+ String c s2)) q l p out =
            Base64.a2b_loop (String ch (s1 +:+ s2)) q l p out).
    cbn [Base64.a2b_loop].
    destruct (Ascii.eqb ch Base64.BASE64_PAD).
    + destruct (2 <=? q)%nat; [|apply IH].
      destruct (4 <=? q + S p)%nat; [reflexivity | apply IH].
    + cbv zeta. destruct (64 <=? Base64.table_a2b_base64 ch)%N; [apply IH|].
      destruct q as [|[|[|q]]]; apply IH.
Qed.

Lemma is_ascii_str_skips s1 c s2 :
  (N_of_ascii c <? 128)%N = true ->
  Base64.is_ascii_str (s1 +:+ String c s2) = Base64.is_ascii_str (s1 +:+ s2).
Proof.
  intros Hc. induction s1 as [|ch s1 IH].
  - change (Base64.is_ascii_str (String c s2) = Base64.is_ascii_str s2).
    cbn [Base64.is_ascii_str]. now rewrite Hc.
  - change (Base64.is_ascii_str (String ch (s1 +:+ String c s2)) =
            Base64.is_ascii_str (String ch (s1 +:+ s2))).
    cbn [Base64.is_ascii_str]. now rewrite IH.
Qed.

(** X17. The input image is decoded leniently ([b64decode] without
    [validate]): an ASCII character outside the base64 alphabet, such as a
    line break or a space, anywhere in the input does not change what is
    decoded, bytes or error. *)
Theorem b64decode_ignores_separators s1 c s2 :
  Ascii.eqb c "="%char = false ->
  (64 <=? Base64.table_a2b_base64 c)%N = true ->
  (N_of_ascii c <? 128)%N = true ->
  Base64.b64decode (s1 +:+ String c s2) = Base64.b64decode (s1 +:+ s2).
Proof.
  intros Hpad Hout Hascii. unfold Base64.b64decode, Base64.a2b_base64.
  rewrite (is_ascii_str_skips _ _ _ Hascii).
  now rewrite (a2b_loop_skips _ _ _ Hpad Hout).
Qed.

(** X17 with a line break in the middle of an encoding. *)
Lemma b64decode_ignores_separators_witness :
  Base64.b64decode ("QUJD" +:+ String "010"%char "RA==") =
  Base64.b64decode ("QUJD" +:+ "RA==").
Proof.
  apply (b64decode_ignores_separators "QUJD" "010"%char "RA==").
  - reflexivity.
  - reflexivity.
  - reflexivity.
Defined.
